(** * Secure ruleset update: a model of [rulesetUpdate.js]

    The update pipeline of [src/chrome/content/code/rulesetUpdate.js] is
    embedded as a state-and-exception monad over a [World] (preferences,
    files, the live ruleset database and a trace of observable events).
    The browser components the script talks to (HTTP transport, JSON
    parser, signature verifier, version comparator, hashing component,
    SQLite file decoder) are the fields of a [Platform] record, so that
    every general theorem holds whatever those components answer.

    The script is written with callbacks.  Within one update attempt a
    callback is run where the event that triggers it fires, so that a run
    of [fetchUpdate] is the whole attempt; an exception that a callback
    leaves uncaught is the [Throw] result of the run.  Two attempts that
    overlap in time are outside this model.

    JavaScript strings are modelled by [string]: one character per code
    unit, which is exact for the 8-bit code units the manifests, version
    numbers and binary digests are made of. *)

From Stdlib Require Import ZArith NArith Lia List String Ascii Bool.
From Stdlib Require Import Strings.Byte.
From stdpp Require Import base option list strings pretty gmap.

Local Open Scope string_scope.
Local Open Scope Z_scope.

#[local] Set Warnings "-register-all".

(** ** JavaScript values and the built-ins the script uses *)

Module JS.

(** A value as [JSON.parse] can produce it.  A number is carried by its
    decimal rendering ([Number.prototype.toString]); an object keeps its
    members in document order, a later duplicate shadowing an earlier one. *)
Inductive Value : Type :=
| Undefined
| Null
| Bool (b : bool)
| Number (repr : string)
| Str (s : string)
| Array (items : list Value)
| Object (members : list (string * Value)).

(** Exceptions that can leave a function uncaught. *)
Inductive Exn : Type :=
| SyntaxError
| TypeError
| NS_ERROR (name : string).

Inductive Result (A : Type) : Type :=
| Ok (a : A)
| Throw (e : Exn).
Arguments Ok {A} a.
Arguments Throw {A} e.

Definition length (s : string) : Z := Z.of_nat (String.length s).

(** Relative index of [slice]: a negative index counts from the end, and
    the result is clamped to [0, len]. *)
Definition relative (len i : Z) : Z :=
  if i <? 0 then Z.max (len + i) 0 else Z.min i len.

(** [String.prototype.slice(start, stop)] *)
Definition slice (s : string) (start stop : Z) : string :=
  let len := length s in
  let from := relative len start in
  let to := relative len stop in
  String.substring (Z.to_nat from) (Z.to_nat (Z.max (to - from) 0)) s.

(** [String.prototype.slice(start)] *)
Definition slice_from (s : string) (start : Z) : string :=
  slice s start (length s).

Fixpoint lastIndexOf_from (c : ascii) (s : string) (i found : Z) : Z :=
  match s with
  | EmptyString => found
  | String a rest =>
      lastIndexOf_from c rest (i + 1) (if Ascii.eqb a c then i else found)
  end.

(** [String.prototype.lastIndexOf(c)] for a one-character needle: the
    greatest index holding [c], or [-1]. *)
Definition lastIndexOf (s : string) (c : ascii) : Z :=
  lastIndexOf_from c s 0 (-1).

(** [String.prototype.charCodeAt(i)]; [None] stands for [NaN]. *)
Definition charCodeAt (s : string) (i : Z) : option N :=
  if i <? 0 then None
  else match String.get (Z.to_nat i) s with
       | Some a => Some (N_of_ascii a)
       | None => None
       end.

(** Rendering of a char code in a string concatenation. *)
Definition show_code (c : option N) : string :=
  match c with
  | Some n => pretty n
  | None => "NaN"
  end.

(** White space and line terminators among the 8-bit code units. *)
Definition is_space (a : ascii) : bool :=
  let n := N_of_ascii a in
  ((9 <=? n) && (n <=? 13) || (n =? 32) || (n =? 160))%N.

Fixpoint trim_left (s : string) : string :=
  match s with
  | EmptyString => EmptyString
  | String a rest => if is_space a then trim_left rest else s
  end.

Fixpoint trim_right (s : string) : string :=
  match s with
  | EmptyString => EmptyString
  | String a rest =>
      match trim_right rest with
      | EmptyString => if is_space a then EmptyString else String a EmptyString
      | r => String a r
      end
  end.

(** [String.prototype.trim()] *)
Definition trim (s : string) : string := trim_right (trim_left s).

(** [v === s] for a string [s]: no conversion takes place. *)
Definition strict_eq_str (v : Value) (s : string) : bool :=
  match v with
  | Str t => String.eqb t s
  | _ => false
  end.

(** Property read [o.k] for a name that no prototype defines (the five
    manifest fields are such names). *)
Definition get (o : Value) (k : string) : Result Value :=
  match o with
  | Undefined | Null => Throw TypeError
  | Object members =>
      Ok (fold_left (fun found kv => if String.eqb (fst kv) k then snd kv else found)
                    members Undefined)
  | _ => Ok Undefined
  end.

(** The results of a list of conversions, or the first exception. *)
Fixpoint sequence {A} (rs : list (Result A)) : Result (list A) :=
  match rs with
  | [] => Ok []
  | Throw e :: _ => Throw e
  | Ok a :: rest =>
      match sequence rest with
      | Ok l => Ok (a :: l)
      | Throw e => Throw e
      end
  end.

(** [ToString], as applied by string concatenation and by the conversion
    of an argument to a component.  An array is its elements joined by
    commas, [null] and [undefined] elements being rendered empty.  An
    object is rendered by [Object.prototype.toString], unless it has a
    member named [toString], which is no function: the conversion then
    raises a [TypeError]. *)
Fixpoint ToString (v : Value) : Result string :=
  match v with
  | Undefined => Ok "undefined"
  | Null => Ok "null"
  | Bool true => Ok "true"
  | Bool false => Ok "false"
  | Number repr => Ok repr
  | Str s => Ok s
  | Array items =>
      match sequence (map (fun x => match x with
                                    | Undefined | Null => Ok EmptyString
                                    | _ => ToString x
                                    end) items) with
      | Ok parts => Ok (String.concat "," parts)
      | Throw e => Throw e
      end
  | Object members =>
      if existsb (fun kv => String.eqb (fst kv) "toString") members
      then Throw TypeError
      else Ok "[object Object]"
  end.

Fixpoint arr_lastIndexOf_from (needle : string) (l : list Value) (i found : Z) : Z :=
  match l with
  | [] => found
  | x :: rest =>
      arr_lastIndexOf_from needle rest (i + 1)
        (if strict_eq_str x needle then i else found)
  end.

(** [Array.prototype.lastIndexOf(needle)] for a string needle. *)
Definition arr_lastIndexOf (l : list Value) (needle : string) : Z :=
  arr_lastIndexOf_from needle l 0 (-1).

(** [Array.prototype.slice(start, stop)] *)
Definition arr_slice (l : list Value) (start stop : Z) : list Value :=
  let len := Z.of_nat (List.length l) in
  let from := relative len start in
  let to := relative len stop in
  firstn (Z.to_nat (Z.max (to - from) 0)) (skipn (Z.to_nat from) l).

Definition hex_digit (d : N) : ascii :=
  if (d <? 10)%N then ascii_of_N (48 + d) else ascii_of_N (87 + d).

Fixpoint hex_digits (fuel : nat) (n : N) (acc : string) : string :=
  match fuel with
  | O => acc
  | S fuel' =>
      let acc' := String (hex_digit (n mod 16)) acc in
      if (n / 16 =? 0)%N then acc' else hex_digits fuel' (n / 16) acc'
  end.

(** [Number.prototype.toString(16)] on a non-negative integer. *)
Definition toString16 (n : N) : string :=
  hex_digits (S (N.size_nat n)) n EmptyString.

End JS.

(** ** The SQLite statements the script issues *)

Module Sql.

(** SQLite resolves the name of a table or of a column without regard to
    the case of its ASCII letters: [drop table rulesets] drops a table
    that was created as [Rulesets]. *)
Definition fold_ascii (c : ascii) : ascii :=
  let n := N_of_ascii c in
  if (65 <=? n)%N && (n <=? 90)%N then ascii_of_N (n + 32) else c.

Fixpoint fold_name (s : string) : string :=
  match s with
  | EmptyString => EmptyString
  | String c rest => String (fold_ascii c) (fold_name rest)
  end.

(** A table: its declared columns and its rows; a row is kept by the
    folded names of its columns, and a column missing from a row holds
    NULL.  Column types, defaults and constraints are not modelled. *)
Record Table : Type := {
  columns : list string;
  rows : list (gmap string string)
}.

(** A database keeps each table under its folded name, no two tables of
    an SQLite database having the same one; [table name db] is the table
    a statement that writes [name] works on. *)
Definition table (name : string) (db : gmap string Table) : option Table :=
  db !! fold_name name.

(** [drop table t]: fails when [t] does not exist. *)
Definition drop_table (t : string) (db : gmap string Table)
  : option (gmap string Table) :=
  match table t db with
  | Some _ => Some (delete (fold_name t) db)
  | None => None
  end.

Definition has_columns (cols : list string) (tb : Table) : bool :=
  forallb (fun c => existsb (fun c' => String.eqb (fold_name c) (fold_name c'))
                      (columns tb)) cols.

(** Preparing [select cols from t] fails when the table or a column is
    missing; stepping the statement yields the rows in order. *)
Definition select (cols : list string) (t : string) (db : gmap string Table)
  : option (list (list (option string))) :=
  match table t db with
  | Some tb =>
      if has_columns cols tb
      then Some (map (fun r : gmap string string => map (fun c => r !! fold_name c) cols)
                   (rows tb))
      else None
  | None => None
  end.

(** Preparing [insert into t (cols) values (..)] fails likewise. *)
Definition can_insert (cols : list string) (t : string) (db : gmap string Table) : bool :=
  match table t db with
  | Some tb => has_columns cols tb
  | None => false
  end.

Fixpoint row_of (cols : list string) (vals : list (option string)) : gmap string string :=
  match cols, vals with
  | c :: cols', Some v :: vals' => <[fold_name c := v]> (row_of cols' vals')
  | _ :: cols', None :: vals' => row_of cols' vals'
  | _, _ => ∅
  end.

(** Executing the prepared insert with the bound values. *)
Definition insert (cols : list string) (vals : list (option string)) (t : string)
    (db : gmap string Table) : gmap string Table :=
  alter (fun tb => {| columns := columns tb; rows := rows tb ++ [row_of cols vals] |})
    (fold_name t) db.

End Sql.

(** ** Platform, world and the monad of the script *)

Import JS.

(** The algorithms of [nsICryptoHash] the script initialises. *)
Inductive HashAlg : Type := MD5 | SHA1 | SHA256 | SHA384 | SHA512.

(** What an [nsIXMLHttpRequest] does with a URL: [open] raises, the
    request ends without a [load] event, or [onload] runs with the
    response (an array buffer, or [null] when no data came). *)
Inductive XhrOutcome : Type :=
| XhrOpenFails
| XhrNoLoad
| XhrLoad (response : option (list byte)).

(** The components outside the script.  [http_get url k] is the body
    answered to the attempt number [k] on [url], [None] when that
    attempt fails.  A component that raises answers [None]. *)
Record Platform : Type := {
  os_tmpDir : string;
  http_get : string -> nat -> option string;
  JSON_parse : string -> option Value;
  verifyData : string -> string -> string -> option bool;
  versionCompare : string -> string -> Z;
  cryptoHash : HashAlg -> list byte -> list byte;
  xhr : string -> XhrOutcome;
  sqlite_read : list byte -> option (gmap string Sql.Table)
}.

Inductive Level : Type := INFO | NOTE | WARN.

(** What an observer of one update attempt can see. *)
Inductive Event : Type :=
| Log (level : Level) (message : string)
| HttpGet (url : string)
| HttpGaveUp (url : string)
| SigVerify (data signature key : string)
| XhrSend (url : string)
| RulesInit.

Definition is_log (e : Event) : bool :=
  match e with
  | Log _ _ => true
  | _ => false
  end.

Record World : Type := {
  prefs : gmap string string;
  files : gmap string (list byte);
  mainDB : gmap string Sql.Table;
  trace : list Event
}.

Definition M (A : Type) : Type := World -> Result A * World.

Definition ret {A} (a : A) : M A := fun w => (Ok a, w).

Definition throw {A} (e : Exn) : M A := fun w => (Throw e, w).

Definition bind {A B} (m : M A) (k : A -> M B) : M B :=
  fun w =>
    match m w with
    | (Ok a, w') => k a w'
    | (Throw e, w') => (Throw e, w')
    end.

Notation "'let*' x ':=' m 'in' k" := (bind m (fun x => k))
  (at level 10, x pattern, m at level 100, k at level 200).
Notation "m ';;' k" := (bind m (fun _ => k))
  (at level 100, k at level 200, right associativity).

Definition lift {A} (r : Result A) : M A := fun w => (r, w).

Definition emit (e : Event) : M unit :=
  fun w => (Ok tt, {| prefs := prefs w; files := files w; mainDB := mainDB w;
                      trace := trace w ++ [e] |}).

Definition set_files (f : gmap string (list byte)) : M unit :=
  fun w => (Ok tt, {| prefs := prefs w; files := f; mainDB := mainDB w;
                      trace := trace w |}).

Definition set_mainDB (db : gmap string Sql.Table) : M unit :=
  fun w => (Ok tt, {| prefs := prefs w; files := files w; mainDB := db;
                      trace := trace w |}).

Definition get_files : M (gmap string (list byte)) := fun w => (Ok (files w), w).

Definition get_mainDB : M (gmap string Sql.Table) := fun w => (Ok (mainDB w), w).

(** Modelled from the spec: [https_everywhereLog], the logging facility,
    is not part of the source file; a call is recorded in the trace. *)
Definition https_everywhereLog (level : Level) (message : string) : M unit :=
  emit (Log level message).

(** [_prefs.getCharPref(key)] raises when the preference has no value. *)
Definition getCharPref (key : string) : M string :=
  fun w =>
    match prefs w !! key with
    | Some v => (Ok v, w)
    | None => (Throw (NS_ERROR "NS_ERROR_UNEXPECTED"), w)
    end.

(** ** Constants of the script *)

Definition RULESET_UPDATE_KEY : string :=
  "MIIBIjANBgkqhkiG9w0BAQEFAAOCAQ8AMIIBCgKCAQEA7wJz/Ekn4loB+GX/TnObTo/5J0/aq1hBl" +:+
  "+xeSyCUX/fggjju5jnRnbnQx10OaZ655Yft4Cs2IfdIh95NYsN+gfi6HVesy/Q9G72BjhpW6+gTlk" +:+
  "W9vW56xwjv+Cpi5/20SKbvMZCMXTvR50HqLaLiOeLyAOQv06FKlyF5kbgQwpayExii75KFJL3HlH5" +:+
  "+mZfNfKElNK9Oyiig7sqnVTOdovNCFnW8zom2fS3YyODaFvPUSmo1Yd7Mr0xWjE5rAV7k70aZlR1N" +:+
  "Eze/Tfcf42LEhY5XkflczIWh+cse/v/sbZadS9jxbD2SgEJuLatF5zupmd0acvj1II8do2RE95FQC" +:+
  "QIDAQAB".

Definition BRANCH_PREF : string := "extensions.https_everywhere.branch_name".
Definition VERSION_PREF : string := "extensions.https_everywhere.release_version".
Definition RULESET_VERSION_PREF : string := "extensions.https_everywhere.ruleset_version".
Definition RSUPDATE_URL_PREF : string := "extensions.https_everywhere.ruleset_update_url".
Definition RSUPDATE_SIG_URL_PREF : string :=
  "extensions.https_everywhere.ruleset_update_signature_url".

(** [OS.Path.join(OS.Constants.Path.tmpDir, "new_rulesets.sqlite")] *)
Definition TMP_RULESET_DBFILE_PATH (P : Platform) : string :=
  os_tmpDir P +:+ "/" +:+ "new_rulesets.sqlite".

Definition MAX_RSUPDATE_FETCHES : nat := 6.

(** Declared by the script, and used nowhere in it. *)
Definition SIGNING_DIGEST_FN : string := "sha256".

(** ** The functions of [rulesetUpdate.js] *)

Section Updater.

Variable P : Platform.

(** Modelled from the spec: [HTTPSRules.init], the reload operation of
    the rule index, is not part of the source file; a call is recorded
    in the trace. *)
Definition HTTPSRules_init : M unit := emit RulesInit.

(** [Services.storage.openDatabase(file)]: a missing file is created
    empty; a file that is no database raises. *)
Definition openDatabase (path : string) : M (gmap string Sql.Table) :=
  let* fs := get_files in
  match fs !! path with
  | None => set_files (<[path := []]> fs) ;; ret ∅
  | Some content =>
      match sqlite_read P content with
      | Some db => ret db
      | None => throw (NS_ERROR "NS_ERROR_FILE_CORRUPTED")
      end
  end.

(** [mainDB.createStatement("drop table t").execute()] *)
Definition drop_main (t : string) : M unit :=
  let* db := get_mainDB in
  match Sql.drop_table t db with
  | Some db' => set_mainDB db'
  | None => throw (NS_ERROR "NS_ERROR_FAILURE")
  end.

(** [tempDB.createStatement("select cols from t")] *)
Definition prepare_select (tempDB : gmap string Sql.Table) (cols : list string)
    (t : string) : M (list (list (option string))) :=
  match Sql.select cols t tempDB with
  | Some rs => ret rs
  | None => throw (NS_ERROR "NS_ERROR_FAILURE")
  end.

(** [mainDB.createStatement("insert into t (cols) values (..)")] *)
Definition prepare_insert (cols : list string) (t : string) : M unit :=
  let* db := get_mainDB in
  if Sql.can_insert cols t db then ret tt
  else throw (NS_ERROR "NS_ERROR_FAILURE").

(** [while (selectStmt.executeStep()) { bind the row; insertStmt.execute(); }] *)
Fixpoint copy_rows (cols : list string) (t : string)
    (selected : list (list (option string))) : M unit :=
  match selected with
  | [] => ret tt
  | row :: rest =>
      (let* db := get_mainDB in set_mainDB (Sql.insert cols row t db)) ;;
      copy_rows cols t rest
  end.

(** [Cc['@mozilla.org/file/local;1'].createInstance(Ci.nsILocalFIle)]:
    the interface is named [nsILocalFile], so [Ci.nsILocalFIle] is
    [undefined] and [createInstance] raises. *)
Definition createInstance_nsILocalFIle : M unit :=
  throw (NS_ERROR "NS_ERROR_XPC_BAD_IID").

(** [tmpFile.remove(false)] *)
Definition remove_file (path : string) : M unit :=
  let* fs := get_files in
  match fs !! path with
  | Some _ => set_files (delete path fs)
  | None => throw (NS_ERROR "NS_ERROR_FILE_NOT_FOUND")
  end.

Definition applyNewRuleset : M unit :=
  https_everywhereLog INFO "In applyNewRuleset" ;;
  let* tempDB := openDatabase (TMP_RULESET_DBFILE_PATH P) in
  https_everywhereLog INFO "Opened database connections for copying" ;;
  drop_main "rulesets" ;;
  drop_main "targets" ;;
  https_everywhereLog INFO "Dropped data from rulesets database" ;;
  let* selected := prepare_select tempDB ["host"; "ruleset_id"] "targets" in
  prepare_insert ["host"; "ruleset_id"] "targets" ;;
  copy_rows ["host"; "ruleset_id"] "targets" selected ;;
  https_everywhereLog INFO "Inserted new targets data into database" ;;
  let* selected := prepare_select tempDB ["contents"] "rulesets" in
  prepare_insert ["contents"] "rulesets" ;;
  copy_rows ["contents"] "rulesets" selected ;;
  https_everywhereLog INFO "Inserted new rulesets data into database" ;;
  createInstance_nsILocalFIle ;;
  remove_file (TMP_RULESET_DBFILE_PATH P) ;;
  https_everywhereLog INFO "Removed temporary database file" ;;
  HTTPSRules_init ;;
  https_everywhereLog INFO "Reinitialized HTTPSRules".

(** The [if / else if] chain on [hashfn] at the head of [hashBinaryFile];
    [None] is its final [else return null]. *)
Definition hashing_init (hashfn : Value) : option HashAlg :=
  if strict_eq_str hashfn "md5" then Some MD5
  else if strict_eq_str hashfn "sha1" then Some SHA1
  else if strict_eq_str hashfn "sha256" then Some SHA256
  else if strict_eq_str hashfn "sha384" then Some SHA384
  else if strict_eq_str hashfn "sha512" then Some SHA512
  else None.

(** [hashing.updateFromStream(binaryIn, length)]: [length] bytes of the
    stream are hashed, all of it when [length] is [UINT32_MAX]; the call
    raises when the stream is empty or shorter than [length]. *)
Definition updateFromStream (content : list byte) (len : N) : option (list byte) :=
  let n := N.of_nat (List.length content) in
  let len := if (len =? 4294967295)%N then n else len in
  if ((n =? 0) || (n <? len))%N then None
  else Some (firstn (N.to_nat len) content).

Definition toHexStr (charCode : N) : string :=
  slice_from ("0" +:+ toString16 charCode) (-2).

Definition hashBinaryFile (path : string) (len : N) (hashfn : Value) : M Value :=
  match hashing_init hashfn with
  | None => ret Null
  | Some alg =>
      let* fs := get_files in
      match fs !! path with
      | None => throw (NS_ERROR "NS_ERROR_FILE_NOT_FOUND")
      | Some content =>
          match updateFromStream content len with
          | None => throw (NS_ERROR "NS_ERROR_NOT_AVAILABLE")
          | Some data =>
              let hash := cryptoHash P alg data in
              ret (Str (String.concat EmptyString (map (fun b => toHexStr (Byte.to_N b)) hash)))
          end
      end
  end.

(** [xhr.onload] of [fetchRulesetDBFile].  The comparison of [dbHash]
    with [hash] is commented out in the source: both log lines and the
    call to [applyNewRuleset] are unconditional. *)
Definition onload (response : option (list byte)) (hashfn hash : Value) : M unit :=
  match response with
  | Some byteArray =>
      let n := N.of_nat (List.length byteArray) in
      https_everywhereLog INFO ("byteArray has length " +:+ pretty n) ;;
      let* fs := get_files in
      set_files (<[TMP_RULESET_DBFILE_PATH P := byteArray]> fs) ;;
      let* dbHash := hashBinaryFile (TMP_RULESET_DBFILE_PATH P) n hashfn in
      let* shown := lift (ToString dbHash) in
      https_everywhereLog INFO ("dbhash = " +:+ shown) ;;
      https_everywhereLog INFO
        "Hash of database file downloaded matches the hash provided by update.json" ;;
      applyNewRuleset
  | None =>
      https_everywhereLog INFO "Did not download any database data"
  end.

Definition fetchRulesetDBFile (url hashfn hash : Value) : M unit :=
  let* shown := lift (ToString url) in
  https_everywhereLog INFO ("Making request to get database file at " +:+ shown) ;;
  match xhr P shown with
  | XhrOpenFails => throw (NS_ERROR "NS_ERROR_MALFORMED_URI")
  | XhrNoLoad => emit (XhrSend shown)
  | XhrLoad response => emit (XhrSend shown) ;; onload response hashfn hash
  end.

(** [newVersion.slice(0, newVersion.lastIndexOf('.'))]: strings and
    arrays have both methods, any other value raises a [TypeError]. *)
Definition slice_to_last_dot (newVersion : Value) : Result Value :=
  match newVersion with
  | Str s => Ok (Str (slice s 0 (lastIndexOf s ".")))
  | Array l => Ok (Array (arr_slice l 0 (arr_lastIndexOf l ".")))
  | _ => Throw TypeError
  end.

Definition checkVersionRequirements (extVersion rsVersion : string) (newVersion : Value)
  : M bool :=
  https_everywhereLog INFO
    ("Checking version requirements with extension version " +:+ extVersion +:+
     " and ruleset version " +:+ rsVersion) ;;
  let* newRulesetExtVer := lift (slice_to_last_dot newVersion) in
  let* parent := lift (ToString newRulesetExtVer) in
  let sameExtVer := versionCompare P extVersion parent =? 0 in
  let* candidate := lift (ToString newVersion) in
  let newRSVer := versionCompare P candidate rsVersion >? 0 in
  ret (sameExtVer && newRSVer).

Definition verifyUpdateSignature (updateStr signature : string) : M bool :=
  https_everywhereLog INFO "Created instance of nsIDAtaSignatureVerifier" ;;
  emit (SigVerify updateStr signature RULESET_UPDATE_KEY) ;;
  match verifyData P updateStr signature RULESET_UPDATE_KEY with
  | Some verdict => ret verdict
  | None => throw (NS_ERROR "NS_ERROR_FAILURE")
  end.

(** Modelled from the spec: [HTTPSEverywhere.instance.try_request], the
    retried fetch, is not part of the source file.  It performs a GET,
    retries a failed attempt until [depth] attempts are spent, hands the
    body of the first answer to [callback], and gives up silently (log
    only) when every attempt failed. *)
Fixpoint try_request_from (k depth : nat) (url : string)
    (callback : string -> M unit) : M unit :=
  match depth with
  | O => emit (HttpGaveUp url)
  | S depth' =>
      emit (HttpGet url) ;;
      match http_get P url k with
      | Some responseText => callback responseText
      | None => try_request_from (S k) depth' url callback
      end
  end.

(** Modelled from the spec: [try_request(depth, 'GET', url, callback)],
    see [try_request_from]; the first attempt has number [0]. *)
Definition try_request (depth : nat) (url : string) (callback : string -> M unit)
  : M unit :=
  try_request_from 0 depth url callback.

Definition conditionallyApplyUpdate (update : string) : M unit :=
  https_everywhereLog INFO "Got update data:" ;;
  https_everywhereLog INFO update ;;
  https_everywhereLog INFO
    (EmptyString +:+ show_code (charCodeAt update (length update - 3)) +:+
            show_code (charCodeAt update (length update - 2)) +:+
            show_code (charCodeAt update (length update - 1))) ;;
  let* updateObj :=
    match JSON_parse P update with
    | Some v => ret v
    | None => throw SyntaxError
    end in
  let* extVersion := getCharPref VERSION_PREF in
  let* extBranch := getCharPref BRANCH_PREF in
  let* rulesetVersion := getCharPref RULESET_VERSION_PREF in
  https_everywhereLog INFO "Inside call to conditionallyApplyUpdate" ;;
  let* version := lift (get updateObj "version") in
  let* accepted := checkVersionRequirements extVersion rulesetVersion version in
  if negb accepted then
    https_everywhereLog NOTE
      "Downloaded an either incompatible ruleset library or not a new one."
  else
  let* branch := lift (get updateObj "branch") in
  if negb (strict_eq_str branch extBranch) then
    https_everywhereLog WARN "Downloaded a ruleset update for the incorrect branch."
  else
  let* sigFileSrc := getCharPref RSUPDATE_SIG_URL_PREF in
  try_request MAX_RSUPDATE_FETCHES sigFileSrc
    (fun signature =>
       let signature := trim signature in
       https_everywhereLog INFO "Successfully fetched update.json.sig file data" ;;
       let* verified := verifyUpdateSignature update signature in
       if verified then
         https_everywhereLog INFO "Ruleset update data signature verified successfully" ;;
         let* source := lift (get updateObj "source") in
         let* hashfn := lift (get updateObj "hashfn") in
         let* hash := lift (get updateObj "hash") in
         fetchRulesetDBFile source hashfn hash
       else
         https_everywhereLog WARN "Validation of the update signature provided failed.").

Definition fetchUpdate : M unit :=
  https_everywhereLog INFO "Calling fetchUpdate" ;;
  let* manifestSrc := getCharPref RSUPDATE_URL_PREF in
  try_request MAX_RSUPDATE_FETCHES manifestSrc
    (fun responseText =>
       https_everywhereLog INFO "Successfully fetched update.json file data" ;;
       conditionallyApplyUpdate responseText).

End Updater.

(** ** A concrete platform, for running the script on examples *)

Module Json.

(** A recursive-descent reader for JSON texts, standing for [JSON.parse]
    in the examples.  A number is kept by its lexeme, which is its
    rendering when it is a canonically written integer; an escape
    [\uXXXX] above [ÿ] is outside the string model and refused. *)

(** The double quote character. *)
Definition dquote : ascii := ascii_of_N 34.

Definition is_ws (c : ascii) : bool :=
  let n := N_of_ascii c in ((n =? 32) || (n =? 9) || (n =? 10) || (n =? 13))%N.

Definition is_digit (c : ascii) : bool :=
  let n := N_of_ascii c in ((48 <=? n) && (n <=? 57))%N.

Fixpoint skip_ws (s : string) : string :=
  match s with
  | String c rest => if is_ws c then skip_ws rest else s
  | EmptyString => s
  end.

Definition hex_value (c : ascii) : option N :=
  let n := N_of_ascii c in
  if ((48 <=? n) && (n <=? 57))%N then Some (n - 48)%N
  else if ((97 <=? n) && (n <=? 102))%N then Some (n - 87)%N
  else if ((65 <=? n) && (n <=? 70))%N then Some (n - 55)%N
  else None.

Definition unicode_escape (s : string) : option (ascii * string) :=
  match s with
  | String a (String b (String c (String d rest))) =>
      match hex_value a, hex_value b, hex_value c, hex_value d with
      | Some 0%N, Some 0%N, Some h, Some l => Some (ascii_of_N (16 * h + l), rest)
      | _, _, _, _ => None
      end
  | _ => None
  end.

(** The characters of a string literal, after its opening quote. *)
Fixpoint read_chars (fuel : nat) (s : string) : option (string * string) :=
  match fuel with
  | O => None
  | S fuel' =>
      let continue c rest :=
        match read_chars fuel' rest with
        | Some (str, rest') => Some (String c str, rest')
        | None => None
        end in
      match s with
      | EmptyString => None
      | String "\" (String e rest) =>
          if Ascii.eqb e dquote then continue dquote rest
          else
          match e with
          | "\"%char => continue "\"%char rest
          | "/"%char => continue "/"%char rest
          | "b"%char => continue (ascii_of_N 8) rest
          | "f"%char => continue (ascii_of_N 12) rest
          | "n"%char => continue (ascii_of_N 10) rest
          | "r"%char => continue (ascii_of_N 13) rest
          | "t"%char => continue (ascii_of_N 9) rest
          | "u"%char =>
              match unicode_escape rest with
              | Some (c, rest') => continue c rest'
              | None => None
              end
          | _ => None
          end
      | String c rest =>
          if Ascii.eqb c dquote then Some (EmptyString, rest)
          else if (N_of_ascii c <? 32)%N then None
          else continue c rest
      end
  end.

Fixpoint read_digits (s : string) : string * string :=
  match s with
  | String c rest =>
      if is_digit c then let '(ds, rest') := read_digits rest in (String c ds, rest')
      else (EmptyString, s)
  | EmptyString => (EmptyString, s)
  end.

(** [int frac? exp?] of the JSON grammar, after an optional minus sign. *)
Definition read_unsigned (s : string) : option (string * string) :=
  let '(int, rest) := read_digits s in
  match int with
  | EmptyString => None
  | String "0" (String _ _) => None
  | _ =>
      let frac :=
        match rest with
        | String "." rest1 =>
            let '(ds, rest2) := read_digits rest1 in
            match ds with
            | EmptyString => None
            | _ => Some ("." +:+ ds, rest2)
            end
        | _ => Some (EmptyString, rest)
        end in
      match frac with
      | None => None
      | Some (f, rest2) =>
          let with_exp e sign rest3 :=
            let '(ds, rest4) := read_digits rest3 in
            match ds with
            | EmptyString => None
            | _ => Some (int +:+ f +:+ String e sign +:+ ds, rest4)
            end in
          match rest2 with
          | String e (String sg rest3) =>
              if Ascii.eqb e "e" || Ascii.eqb e "E" then
                if Ascii.eqb sg "+" || Ascii.eqb sg "-"
                then with_exp e (String sg EmptyString) rest3
                else with_exp e EmptyString (String sg rest3)
              else Some (int +:+ f, rest2)
          | String e EmptyString =>
              if Ascii.eqb e "e" || Ascii.eqb e "E" then None else Some (int +:+ f, rest2)
          | EmptyString => Some (int +:+ f, rest2)
          end
      end
  end.

Definition read_number (s : string) : option (Value * string) :=
  match s with
  | String "-" rest =>
      match read_unsigned rest with
      | Some (lexeme, rest') =>
          Some (Number (if String.eqb lexeme "0" then "0" else "-" +:+ lexeme), rest')
      | None => None
      end
  | _ =>
      match read_unsigned s with
      | Some (lexeme, rest') => Some (Number lexeme, rest')
      | None => None
      end
  end.

Fixpoint read_value (fuel : nat) (s : string) : option (Value * string) :=
  match fuel with
  | O => None
  | S fuel' =>
      match skip_ws s with
      | String "{" rest =>
          match skip_ws rest with
          | String "}" rest' => Some (Object [], rest')
          | _ =>
              match read_members fuel' rest with
              | Some (ms, rest') => Some (Object ms, rest')
              | None => None
              end
          end
      | String "[" rest =>
          match skip_ws rest with
          | String "]" rest' => Some (Array [], rest')
          | _ =>
              match read_elements fuel' rest with
              | Some (vs, rest') => Some (Array vs, rest')
              | None => None
              end
          end
      | String "t" (String "r" (String "u" (String "e" rest))) => Some (Bool true, rest)
      | String "f" (String "a" (String "l" (String "s" (String "e" rest)))) =>
          Some (Bool false, rest)
      | String "n" (String "u" (String "l" (String "l" rest))) => Some (Null, rest)
      | String c rest =>
          if Ascii.eqb c dquote then
            match read_chars (S (String.length rest)) rest with
            | Some (str, rest') => Some (Str str, rest')
            | None => None
            end
          else read_number (String c rest)
      | EmptyString => None
      end
  end
with read_elements (fuel : nat) (s : string) : option (list Value * string) :=
  match fuel with
  | O => None
  | S fuel' =>
      match read_value fuel' s with
      | Some (v, rest) =>
          match skip_ws rest with
          | String "," rest' =>
              match read_elements fuel' rest' with
              | Some (vs, rest'') => Some (v :: vs, rest'')
              | None => None
              end
          | String "]" rest' => Some ([v], rest')
          | _ => None
          end
      | None => None
      end
  end
with read_members (fuel : nat) (s : string) : option (list (string * Value) * string) :=
  match fuel with
  | O => None
  | S fuel' =>
      match skip_ws s with
      | String c rest =>
          if negb (Ascii.eqb c dquote) then None else
          match read_chars (S (String.length rest)) rest with
          | Some (key, rest1) =>
              match skip_ws rest1 with
              | String ":" rest2 =>
                  match read_value fuel' rest2 with
                  | Some (v, rest3) =>
                      match skip_ws rest3 with
                      | String "," rest4 =>
                          match read_members fuel' rest4 with
                          | Some (ms, rest5) => Some ((key, v) :: ms, rest5)
                          | None => None
                          end
                      | String "}" rest4 => Some ([(key, v)], rest4)
                      | _ => None
                      end
                  | None => None
                  end
              | _ => None
              end
          | None => None
          end
      | _ => None
      end
  end.

(** The whole text must be one value, white space apart; [None] is the
    [SyntaxError] of [JSON.parse]. *)
Definition parse (s : string) : option Value :=
  match read_value (S (S (String.length s))) s with
  | Some (v, rest) =>
      match skip_ws rest with
      | EmptyString => Some v
      | _ => None
      end
  | None => None
  end.

End Json.

Module Version.

Fixpoint split_dots (s : string) : list string :=
  match s with
  | EmptyString => [EmptyString]
  | String a rest =>
      if Ascii.eqb a "." then EmptyString :: split_dots rest
      else match split_dots rest with
           | part :: parts => String a part :: parts
           | [] => [String a EmptyString]
           end
  end.

Fixpoint leading_number (s : string) (acc : N) : N :=
  match s with
  | String c rest =>
      if Json.is_digit c then leading_number rest (10 * acc + (N_of_ascii c - 48))%N
      else acc
  | EmptyString => acc
  end.

Definition parts (s : string) : list N :=
  map (fun part => leading_number part 0%N) (split_dots s).

Fixpoint compare_parts (a b : list N) : Z :=
  match a with
  | [] => if forallb (N.eqb 0) b then 0 else -1
  | x :: a' =>
      match b with
      | [] => if (x =? 0)%N then compare_parts a' [] else 1
      | y :: b' =>
          if (x <? y)%N then -1
          else if (y <? x)%N then 1
          else compare_parts a' b'
      end
  end.

(** Modelled from the spec: the version comparator ([nsIVersionComparator],
    a browser component) orders versions by their dot-separated parts,
    read as numbers and not as text; a missing part counts as [0].  This
    is the toolkit's ordering on versions whose parts are decimal. *)
Definition compare (a b : string) : Z := compare_parts (parts a) (parts b).

End Version.

Module Demo.

Definition quoted (s : string) : string :=
  String Json.dquote (s +:+ String Json.dquote EmptyString).

(** The text of a manifest with the five fields of [update.json]. *)
Definition manifest (version branch source hashfn hash : string) : string :=
  "{" +:+ quoted "version" +:+ ": " +:+ quoted version +:+ ", " +:+
          quoted "branch" +:+ ": " +:+ quoted branch +:+ ", " +:+
          quoted "source" +:+ ": " +:+ quoted source +:+ ", " +:+
          quoted "hashfn" +:+ ": " +:+ quoted hashfn +:+ ", " +:+
          quoted "hash" +:+ ": " +:+ quoted hash +:+ "}".

Fixpoint checksum (s : string) (acc : N) : N :=
  match s with
  | String c rest => checksum rest ((31 * acc + N_of_ascii c) mod 65536)%N
  | EmptyString => acc
  end.

(** A toy signature scheme: the signature of a text is its checksum. *)
Definition sign (data : string) : string := "sig:" +:+ pretty (checksum data 7%N).

Definition verify (data signature key : string) : option bool :=
  Some (String.eqb signature (sign data) && String.eqb key RULESET_UPDATE_KEY).

Definition digest_size (alg : HashAlg) : nat :=
  match alg with
  | MD5 => 16
  | SHA1 => 20
  | SHA256 => 32
  | SHA384 => 48
  | SHA512 => 64
  end.

Definition to_byte (n : N) : byte :=
  match Byte.of_N (n mod 256) with
  | Some b => b
  | None => x00
  end.

(** A toy digest of the right size for each algorithm. *)
Definition digest (alg : HashAlg) (data : list byte) : list byte :=
  let seed := fold_left (fun acc b => (31 * acc + Byte.to_N b) mod 256)%N data 7%N in
  map (fun i => to_byte (seed + 17 * N.of_nat i)) (seq 0 (digest_size alg)).

Definition table (cols : list string) (rs : list (list (string * string))) : Sql.Table :=
  {| Sql.columns := cols; Sql.rows := map list_to_map rs |}.

(** A toy database file format: the byte [S], then one target and one
    ruleset per byte; the empty file is the empty database. *)
Definition read_db (content : list byte) : option (gmap string Sql.Table) :=
  match content with
  | [] => Some ∅
  | x53 :: body =>
      Some (<["targets" :=
               table ["host"; "ruleset_id"]
                 (map (fun b => [("host", "host" +:+ pretty (Byte.to_N b));
                                 ("ruleset_id", pretty (Byte.to_N b))]) body)]>
            (<["rulesets" :=
               table ["id"; "contents"]
                 (map (fun b => [("id", pretty (Byte.to_N b));
                                 ("contents", "ruleset" +:+ pretty (Byte.to_N b))]) body)]>
             ∅))
  | _ => None
  end.

Definition manifest_url : string := "https://example.org/update.json".
Definition signature_url : string := "https://example.org/update.json.sig".

(** The server answers the second attempt on either URL; an artifact
    URL with an [http:] or [https:] scheme answers with [artifact], and
    no request can be opened on any other text. *)
Definition platform (update signature : string) (artifact : option (list byte))
  : Platform :=
  {| os_tmpDir := "/tmp";
     http_get := fun url k =>
       if (k =? 0)%nat then None
       else if String.eqb url manifest_url then Some update
       else if String.eqb url signature_url then Some signature
       else None;
     JSON_parse := Json.parse;
     verifyData := verify;
     versionCompare := Version.compare;
     cryptoHash := digest;
     xhr := fun url =>
       if String.prefix "https://" url || String.prefix "http://" url
       then XhrLoad artifact
       else XhrOpenFails;
     sqlite_read := read_db |}.

Definition installed : gmap string Sql.Table :=
  <["targets" := table ["host"; "ruleset_id"] [[("host", "eff.org"); ("ruleset_id", "1")]]]>
  (<["rulesets" := table ["id"; "contents"] [[("id", "1"); ("contents", "ruleset-eff")]]]> ∅).

(** Extension 3.4.5 on the stable branch, with rulesets 3.4.5.1. *)
Definition world : World :=
  {| prefs := list_to_map
       [(VERSION_PREF, "3.4.5"); (BRANCH_PREF, "stable");
        (RULESET_VERSION_PREF, "3.4.5.1");
        (RSUPDATE_URL_PREF, manifest_url);
        (RSUPDATE_SIG_URL_PREF, signature_url)];
     files := ∅;
     mainDB := installed;
     trace := [] |}.

Definition artifact : list byte := [x53; x01; x02].

Definition hex (bs : list byte) : string :=
  String.concat EmptyString (map (fun b => toHexStr (Byte.to_N b)) bs).

Definition https_source : string := "https://example.org/new_rulesets.sqlite".

(** The digest the publisher announces for [artifact]. *)
Definition good_hash : string := hex (digest SHA256 artifact).

(** A newer release for this extension and branch, rightly hashed. *)
Definition update_ok : string :=
  manifest "3.4.5.2" "stable" https_source "sha256" good_hash.

(** The same release on another branch. *)
Definition update_beta : string :=
  manifest "3.4.5.2" "beta" https_source "sha256" good_hash.

(** The release that is already installed. *)
Definition update_stale : string :=
  manifest "3.4.5.1" "stable" https_source "sha256" good_hash.

(** A manifest whose [hash] is not the digest of the artifact served. *)
Definition update_bad_hash : string :=
  manifest "3.4.5.2" "stable" https_source "sha256" "00".

(** A manifest naming a digest the script does not know. *)
Definition update_sha3 : string :=
  manifest "3.4.5.2" "stable" https_source "sha3" good_hash.

(** A manifest whose artifact is served over plain HTTP. *)
Definition update_http : string :=
  manifest "3.4.5.2" "stable" "http://example.org/new_rulesets.sqlite" "sha256" good_hash.

(** A manifest without [hashfn] and [hash]. *)
Definition update_no_hash : string :=
  "{" +:+ quoted "version" +:+ ": " +:+ quoted "3.4.5.2" +:+ ", " +:+
          quoted "branch" +:+ ": " +:+ quoted "stable" +:+ ", " +:+
          quoted "source" +:+ ": " +:+ quoted https_source +:+ "}".

(** The publisher's server: [update] with its genuine signature. *)
Definition served (update : string) : Platform :=
  platform update (sign update +:+ String (ascii_of_N 10) EmptyString) (Some artifact).

(** A server answering [update] with a signature that is not its own. *)
Definition forged (update : string) : Platform :=
  platform update "sig:0" (Some artifact).

(** The value [update] parses to. *)
Definition parsed (update : string) : Value :=
  match Json.parse update with
  | Some v => v
  | None => Undefined
  end.

(** The world once [artifact] has been staged. *)
Definition staged : World :=
  {| prefs := prefs world;
     files := <["/tmp/new_rulesets.sqlite" := artifact]> ∅;
     mainDB := installed;
     trace := [] |}.

(** The same with another live database. *)
Definition staged_over (db : gmap string Sql.Table) : World :=
  {| prefs := prefs world; files := files staged; mainDB := db; trace := [] |}.

(** The installed database with a third table, as its keeper wrote the
    name. *)
Definition settings : Sql.Table := table ["key"; "value"] [[("key", "theme")]].

Definition with_settings : gmap string Sql.Table :=
  <[Sql.fold_name "Settings" := settings]> installed.

(** A live database that has lost its table [rulesets]. *)
Definition targets_only : gmap string Sql.Table :=
  delete "rulesets" installed.

End Demo.

(** ** Vocabulary of the statements *)

(** [steady allowed w w']: between [w] and [w'] the preferences, the
    files and the live database are untouched, and the trace grew by
    events that all satisfy [allowed]. *)
Definition steady (allowed : Event -> bool) (w w' : World) : Prop :=
  prefs w' = prefs w /\ files w' = files w /\ mainDB w' = mainDB w /\
  exists events, trace w' = (trace w ++ events)%list /\
                 Forall (fun e => allowed e = true) events.

(** Only log lines were written. *)
Definition log_only : World -> World -> Prop := steady is_log.

(** Neither an artifact request nor a reload of the rule index. *)
Definition no_fetch (e : Event) : bool :=
  match e with
  | XhrSend _ | RulesInit => false
  | _ => true
  end.

Definition same_prefs (w w' : World) : Prop := prefs w' = prefs w.

(** The trace of [w'] continues the trace of [w]. *)
Definition extends (w w' : World) : Prop :=
  exists events, trace w' = (trace w ++ events)%list.

(** [m] never returns normally. *)
Definition raises {A} (m : M A) : Prop :=
  forall w, exists e, fst (m w) = Throw e.

(** Every run of [m] relates the world before to the world after. *)
Definition respects {A} (R : World -> World -> Prop) (m : M A) : Prop :=
  forall w, R w (snd (m w)).

(** The body that [try_request_from] hands to its callback, if any. *)
Fixpoint first_response (P : Platform) (k depth : nat) (url : string) : option string :=
  match depth with
  | O => None
  | S depth' =>
      match http_get P url k with
      | Some body => Some body
      | None => first_response P (S k) depth' url
      end
  end.

(** The signature document an attempt started in [w] obtains, if any. *)
Definition fetched_signature (P : Platform) (w : World) : option string :=
  match prefs w !! RSUPDATE_SIG_URL_PREF with
  | Some sigFileSrc => first_response P 0 MAX_RSUPDATE_FETCHES sigFileSrc
  | None => None
  end.

(** The manifest an attempt started in [w] obtains, if any. *)
Definition fetched_manifest (P : Platform) (w : World) : option string :=
  match prefs w !! RSUPDATE_URL_PREF with
  | Some manifestSrc => first_response P 0 MAX_RSUPDATE_FETCHES manifestSrc
  | None => None
  end.

(** The digest names [hashBinaryFile] knows. *)
Definition supported_hashfn : list string := ["md5"; "sha1"; "sha256"; "sha384"; "sha512"].

Definition is_lower_hex (c : ascii) : bool :=
  let n := N_of_ascii c in
  ((48 <=? n) && (n <=? 57) || (97 <=? n) && (n <=? 102))%N.

Fixpoint all_chars (p : ascii -> bool) (s : string) : bool :=
  match s with
  | EmptyString => true
  | String c rest => p c && all_chars p rest
  end.

Definition no_dot (s : string) : bool := all_chars (fun c => negb (Ascii.eqb c ".")) s.

(** A [version] value on which [slice] and [lastIndexOf] cannot be called. *)
Definition unusable_version (v : Value) : bool :=
  match v with
  | Str _ | Array _ => false
  | _ => true
  end.

(** A body that does not parse, or parses to [null], or whose [version]
    is neither a string nor an array. *)
Definition malformed (P : Platform) (update : string) : Prop :=
  match JSON_parse P update with
  | None => True
  | Some updateObj =>
      match get updateObj "version" with
      | Throw _ => True
      | Ok version => unusable_version version = true
      end
  end.

(** The verdict of the version gate; it does not depend on the world
    the gate is run in. *)
Definition accepts (P : Platform) (extVersion rsVersion : string) (newVersion : Value) : Prop :=
  forall w, fst (checkVersionRequirements P extVersion rsVersion newVersion w) = Ok true.

Definition rejects (P : Platform) (extVersion rsVersion : string) (newVersion : Value) : Prop :=
  forall w, fst (checkVersionRequirements P extVersion rsVersion newVersion w) = Ok false.

(** The world [w] after the events [events]. *)
Definition logged (w : World) (events : list Event) : World :=
  {| prefs := prefs w; files := files w; mainDB := mainDB w;
     trace := trace w ++ events |}.

Definition is_http (e : Event) : bool :=
  match e with
  | HttpGet _ | HttpGaveUp _ => true
  | _ => false
  end.

(** An event that a run of [conditionallyApplyUpdate] on the body
    [update] may show before it asks for the artifact: a log line, a
    request of [try_request], or a verification, which must be of
    [update] itself against the embedded key. *)
Definition gate_event (update : string) (e : Event) : bool :=
  match e with
  | XhrSend _ | RulesInit => false
  | SigVerify data _ key => String.eqb data update && String.eqb key RULESET_UPDATE_KEY
  | _ => true
  end.

(** An event that [fetchRulesetDBFile] may show when it asks for [url]. *)
Definition fetch_event (url : string) (e : Event) : bool :=
  match e with
  | Log _ _ => true
  | XhrSend sent => String.eqb sent url
  | _ => false
  end.

(** The number that two hexadecimal digits write. *)
Definition hex_pair_value (s : string) : option N :=
  match s with
  | String h (String l EmptyString) =>
      match Json.hex_value h, Json.hex_value l with
      | Some high, Some low => Some (16 * high + low)%N
      | _, _ => None
      end
  | _ => None
  end.

(** The run [run] of [conditionallyApplyUpdate] stopped before the
    artifact stage: the world is [w] with more events, all of them
    [gate_event]s. *)
Definition stopped_early (update : string) (w : World) (run : Result unit * World) : Prop :=
  exists events,
    snd run = logged w events /\
    Forall (fun e => gate_event update e = true) events.

(** The run [run] of [conditionallyApplyUpdate] went through both gates
    and the verification, and is the run of [fetchRulesetDBFile] on the
    three fields of the manifest. *)
Definition reached_fetch (P : Platform) (update : string) (w : World)
    (run : Result unit * World) : Prop :=
  exists updateObj extVersion extBranch rulesetVersion version signature
         source hashfn hash events,
    JSON_parse P update = Some updateObj /\
    prefs w !! VERSION_PREF = Some extVersion /\
    prefs w !! BRANCH_PREF = Some extBranch /\
    prefs w !! RULESET_VERSION_PREF = Some rulesetVersion /\
    get updateObj "version" = Ok version /\
    accepts P extVersion rulesetVersion version /\
    get updateObj "branch" = Ok (Str extBranch) /\
    fetched_signature P w = Some signature /\
    verifyData P update (trim signature) RULESET_UPDATE_KEY = Some true /\
    get updateObj "source" = Ok source /\
    get updateObj "hashfn" = Ok hashfn /\
    get updateObj "hash" = Ok hash /\
    Forall (fun e => gate_event update e = true) events /\
    run = fetchRulesetDBFile P source hashfn hash (logged w events).

(** ** Frame rules of the monad *)

#[local] Instance same_prefs_preorder : PreOrder same_prefs.
Proof. split; unfold same_prefs; [done | intros w1 w2 w3; congruence]. Qed.

Section Frame.

Context (R : World -> World -> Prop) `{!PreOrder R}.

Lemma respects_ret {A} (a : A) : respects R (ret a).
Proof. intros w; simpl; reflexivity. Qed.

Lemma respects_throw {A} (e : Exn) : respects R (@throw A e).
Proof. intros w; simpl; reflexivity. Qed.

Lemma respects_lift {A} (r : Result A) : respects R (lift r).
Proof. intros w; simpl; reflexivity. Qed.

Lemma respects_get_files : respects R get_files.
Proof. intros w; simpl; reflexivity. Qed.

Lemma respects_get_mainDB : respects R get_mainDB.
Proof. intros w; simpl; reflexivity. Qed.

Lemma respects_getCharPref key : respects R (getCharPref key).
Proof. intros w; unfold getCharPref; destruct (prefs w !! key); simpl; reflexivity. Qed.

Lemma respects_bind {A B} (m : M A) (k : A -> M B) :
  respects R m -> (forall a, respects R (k a)) -> respects R (bind m k).
Proof.
  intros Hm Hk w. unfold bind. specialize (Hm w).
  destruct (m w) as [[a | e] w1]; simpl in *; [| done].
  etransitivity; [exact Hm | apply Hk].
Qed.

End Frame.

Lemma emit_same_prefs e : respects same_prefs (emit e).
Proof. by intros w. Qed.

Lemma set_files_same_prefs f : respects same_prefs (set_files f).
Proof. by intros w. Qed.

Lemma set_mainDB_same_prefs db : respects same_prefs (set_mainDB db).
Proof. by intros w. Qed.

Create HintDb frame.

#[local] Hint Resolve same_prefs_preorder : frame.
#[local] Hint Resolve respects_ret respects_throw respects_lift respects_get_files
  respects_get_mainDB respects_getCharPref : frame.

(** One step of a frame proof: split a sequence, or branch as the code
    branches, or close the goal with a rule of the primitives. *)
Ltac frame_step :=
  match goal with
  | |- respects ?R (bind _ _) => apply (respects_bind R); [| intros ?]
  | |- respects _ (match ?x with _ => _ end) => destruct x eqn:?
  | |- respects _ (if ?b then _ else _) => destruct b eqn:?
  | |- respects _ _ => solve [eauto with frame]
  end.

Ltac frame := repeat frame_step.

(** ** Relations that every step of the script respects *)

Section Everywhere.

(** A preorder on worlds that the three writing primitives respect is
    respected by every function of the script. *)
Context (R : World -> World -> Prop) `{!PreOrder R}.
Hypothesis emit_R : forall e, respects R (emit e).
Hypothesis set_files_R : forall f, respects R (set_files f).
Hypothesis set_mainDB_R : forall db, respects R (set_mainDB db).

Variable P : Platform.

#[local] Hint Resolve emit_R set_files_R set_mainDB_R : frame.

Lemma log_respects level message : respects R (https_everywhereLog level message).
Proof. apply emit_R. Qed.

#[local] Hint Resolve log_respects : frame.

Lemma copy_rows_respects cols t selected : respects R (copy_rows cols t selected).
Proof. induction selected as [| row rest IH]; simpl; frame. Qed.

#[local] Hint Resolve copy_rows_respects : frame.

Lemma applyNewRuleset_respects : respects R (applyNewRuleset P).
Proof.
  unfold applyNewRuleset, openDatabase, drop_main, prepare_select, prepare_insert,
    createInstance_nsILocalFIle, remove_file, HTTPSRules_init.
  frame.
Qed.

Lemma hashBinaryFile_respects path len hashfn :
  respects R (hashBinaryFile P path len hashfn).
Proof. unfold hashBinaryFile. frame. Qed.

#[local] Hint Resolve applyNewRuleset_respects hashBinaryFile_respects : frame.

Lemma onload_respects response hashfn hash : respects R (onload P response hashfn hash).
Proof. unfold onload. frame. Qed.

#[local] Hint Resolve onload_respects : frame.

Lemma fetchRulesetDBFile_respects url hashfn hash :
  respects R (fetchRulesetDBFile P url hashfn hash).
Proof. unfold fetchRulesetDBFile. frame. Qed.

Lemma checkVersionRequirements_respects extVersion rsVersion newVersion :
  respects R (checkVersionRequirements P extVersion rsVersion newVersion).
Proof. unfold checkVersionRequirements. frame. Qed.

Lemma verifyUpdateSignature_respects updateStr signature :
  respects R (verifyUpdateSignature P updateStr signature).
Proof. unfold verifyUpdateSignature. frame. Qed.

#[local] Hint Resolve fetchRulesetDBFile_respects checkVersionRequirements_respects
  verifyUpdateSignature_respects : frame.

(** [try_request_from] adds nothing to what its callback and its own
    requests do. *)
Lemma try_request_from_respects k depth url callback :
  (forall body, first_response P k depth url = Some body -> respects R (callback body)) ->
  respects R (try_request_from P k depth url callback).
Proof.
  revert k.
  induction depth as [| depth IH]; intros k Hcb; simpl in *; [apply emit_R |].
  apply (respects_bind R); [apply emit_R | intros _].
  destruct (http_get P url k) as [body |]; [by apply Hcb | by apply IH].
Qed.

Lemma conditionallyApplyUpdate_respects update :
  respects R (conditionallyApplyUpdate P update).
Proof.
  unfold conditionallyApplyUpdate. frame.
  apply try_request_from_respects. intros body _. frame.
Qed.

#[local] Hint Resolve conditionallyApplyUpdate_respects : frame.

Lemma fetchUpdate_respects : respects R (fetchUpdate P).
Proof.
  unfold fetchUpdate. frame.
  apply try_request_from_respects. intros body _. frame.
Qed.

End Everywhere.

(** ** Running the script step by step *)

(** The gate is a function of its arguments, and logs one line. *)
Lemma checkVersionRequirements_run P extVersion rsVersion newVersion w w0 :
  checkVersionRequirements P extVersion rsVersion newVersion w =
  (fst (checkVersionRequirements P extVersion rsVersion newVersion w0),
   logged w [Log INFO ("Checking version requirements with extension version " +:+
                       extVersion +:+ " and ruleset version " +:+ rsVersion)]).
Proof.
  unfold checkVersionRequirements, bind, lift; simpl.
  destruct (slice_to_last_dot newVersion) as [newRulesetExtVer |]; [| done].
  destruct (ToString newRulesetExtVer); [| done].
  by destruct (ToString newVersion).
Qed.

Lemma checkVersionRequirements_fst P extVersion rsVersion newVersion w w' :
  fst (checkVersionRequirements P extVersion rsVersion newVersion w) =
  fst (checkVersionRequirements P extVersion rsVersion newVersion w').
Proof. by rewrite (checkVersionRequirements_run _ _ _ _ w w'). Qed.

(** On a string candidate the gate returns. *)
Lemma checkVersionRequirements_str P extVersion rsVersion newVersion w :
  fst (checkVersionRequirements P extVersion rsVersion (Str newVersion) w) =
  Ok ((versionCompare P extVersion (slice newVersion 0 (lastIndexOf newVersion ".")) =? 0) &&
      (versionCompare P newVersion rsVersion >? 0)).
Proof. done. Qed.

Lemma try_request_from_run P k depth url callback w :
  exists gets,
    Forall (fun e => is_http e = true) gets /\
    try_request_from P k depth url callback w =
    match first_response P k depth url with
    | Some body => callback body (logged w gets)
    | None => (Ok tt, logged w gets)
    end.
Proof.
  revert k w. induction depth as [| depth IH]; intros k w; simpl.
  - exists [HttpGaveUp url]; split; [by repeat constructor | done].
  - unfold bind; simpl.
    destruct (http_get P url k) as [body |].
    + exists [HttpGet url]; split; [by repeat constructor | done].
    + destruct (IH (S k) (logged w [HttpGet url])) as (gets & Hgets & Hrun).
      exists (HttpGet url :: gets); split; [by constructor |].
      unfold logged in *; simpl in *. rewrite Hrun.
      by destruct (first_response P (S k) depth url); rewrite <- app_assoc.
Qed.

Lemma logged_nil w : logged w [] = w.
Proof. destruct w; unfold logged; simpl. by rewrite app_nil_r. Qed.

Lemma logged_app w a b : logged (logged w a) b = logged w (a ++ b).
Proof. unfold logged; simpl. by rewrite app_assoc. Qed.

Lemma run_ret {A B} (a : A) (k : A -> M B) w : bind (ret a) k w = k a w.
Proof. done. Qed.

Lemma run_throw {A B} e (k : A -> M B) w : bind (throw e) k w = (Throw e, w).
Proof. done. Qed.

Lemma run_emit {B} e (k : unit -> M B) w events :
  bind (emit e) k (logged w events) = k tt (logged w (events ++ [e])).
Proof. unfold bind, emit; simpl. by rewrite <- logged_app. Qed.

Lemma run_log {B} level message (k : unit -> M B) w events :
  bind (https_everywhereLog level message) k (logged w events) =
  k tt (logged w (events ++ [Log level message])).
Proof. apply run_emit. Qed.

Lemma run_last_log level message w events :
  https_everywhereLog level message (logged w events) =
  (Ok tt, logged w (events ++ [Log level message])).
Proof. unfold https_everywhereLog, emit; simpl. by rewrite <- logged_app. Qed.

Lemma run_getCharPref {B} key (k : string -> M B) w events :
  bind (getCharPref key) k (logged w events) =
  match prefs w !! key with
  | Some v => k v (logged w events)
  | None => (Throw (NS_ERROR "NS_ERROR_UNEXPECTED"), logged w events)
  end.
Proof. unfold bind, getCharPref; simpl. by destruct (prefs w !! key). Qed.

Lemma run_lift {A B} (r : Result A) (k : A -> M B) w :
  bind (lift r) k w =
  match r with
  | Ok a => k a w
  | Throw e => (Throw e, w)
  end.
Proof. unfold bind, lift. by destruct r. Qed.

Lemma run_checkVersionRequirements {B} P extVersion rsVersion newVersion
    (k : bool -> M B) w events :
  bind (checkVersionRequirements P extVersion rsVersion newVersion) k (logged w events) =
  let w' := logged w (events ++
    [Log INFO ("Checking version requirements with extension version " +:+
               extVersion +:+ " and ruleset version " +:+ rsVersion)]) in
  match fst (checkVersionRequirements P extVersion rsVersion newVersion w) with
  | Ok accepted => k accepted w'
  | Throw e => (Throw e, w')
  end.
Proof.
  unfold bind at 1.
  rewrite (checkVersionRequirements_run _ _ _ _ (logged w events) w), logged_app; simpl.
  by destruct (fst (checkVersionRequirements P extVersion rsVersion newVersion w)).
Qed.

(** Runs the logs, preference reads and gate of the script, one rewrite
    at a time. *)
Ltac run_steps :=
  repeat first
    [ rewrite run_log
    | rewrite run_ret
    | rewrite run_throw
    | rewrite run_getCharPref
    | rewrite run_lift
    | rewrite run_checkVersionRequirements; cbv zeta
    | rewrite run_last_log
    | progress cbn beta iota delta [app negb] ].

Ltac run_gates := unfold conditionallyApplyUpdate; run_steps.

Lemma strict_eq_str_true v s : strict_eq_str v s = true <-> v = Str s.
Proof.
  destruct v; simpl; try (split; [discriminate | by intros ?]).
  rewrite String.eqb_eq. split; [by intros -> | by intros [= ->]].
Qed.

(** C9: the signature document is fetched only after the version gate
    and the branch gate have both passed.  For every manifest that the
    version gate rejects, or that the branch gate rejects after the
    version gate accepted it, [conditionallyApplyUpdate] returns having
    written log lines only: no request is issued to the signature URL (or
    to any URL) and the signature verifier is never run. *)
Theorem signature_fetched_only_after_gates
    P update w updateObj extVersion extBranch rulesetVersion version :
  JSON_parse P update = Some updateObj ->
  prefs w !! VERSION_PREF = Some extVersion ->
  prefs w !! BRANCH_PREF = Some extBranch ->
  prefs w !! RULESET_VERSION_PREF = Some rulesetVersion ->
  get updateObj "version" = Ok version ->
  rejects P extVersion rulesetVersion version \/
  (accepts P extVersion rulesetVersion version /\
   get updateObj "branch" <> Ok (Str extBranch)) ->
  exists events,
    conditionallyApplyUpdate P update w = (Ok tt, logged w events) /\
    Forall (fun e => is_log e = true) events /\
    (forall url, HttpGet url ∉ events) /\
    (forall data signature key, SigVerify data signature key ∉ events).
Proof.
  intros Hparse Hv Hb Hr Hver Hgate.
  assert (exists events,
    conditionallyApplyUpdate P update (logged w []) = (Ok tt, logged w events) /\
    Forall (fun e => is_log e = true) events) as (events & Hrun & Hlogs).
  { run_gates. rewrite Hparse. run_gates. rewrite Hv. run_gates. rewrite Hb.
    run_gates. rewrite Hr. run_gates.
    rewrite Hver. run_gates.
    destruct Hgate as [Hrej | [Hacc Hbranch]].
    - rewrite Hrej; simpl. run_gates.
      eexists; split; [reflexivity | by repeat constructor].
    - rewrite Hacc; simpl. run_gates.
      destruct (get updateObj "branch") as [branch | e] eqn:Hget.
      + destruct (strict_eq_str branch extBranch) eqn:Heq;
          [apply strict_eq_str_true in Heq; congruence |].
        simpl. run_gates.
        eexists; split; [reflexivity | by repeat constructor].
      + destruct updateObj; simpl in *; discriminate. }
  rewrite logged_nil in Hrun.
  exists events; repeat split; [done | done | |].
  - intros url Hin. by apply (proj1 (Forall_forall _ _) Hlogs) in Hin.
  - intros data signature key Hin. by apply (proj1 (Forall_forall _ _) Hlogs) in Hin.
Qed.

Lemma steady_logged_intro allowed w events :
  Forall (fun e => allowed e = true) events -> steady allowed w (logged w events).
Proof. intros Hev. repeat split; simpl. by exists events. Qed.

Lemma http_no_fetch gets :
  Forall (fun e => is_http e = true) gets -> Forall (fun e => no_fetch e = true) gets.
Proof. intros Hgets. eapply Forall_impl; [exact Hgets | by intros []]. Qed.

(** Closes a goal [steady allowed w (snd (_, logged w events))]. *)
Ltac close_steady :=
  cbn [snd]; apply steady_logged_intro;
  repeat first
    [ apply Forall_nil_2
    | apply Forall_cons_2; [reflexivity |]
    | apply Forall_app_2
    | assumption
    | apply http_no_fetch; assumption ].

(** The run of [conditionallyApplyUpdate] up to the parse of the body,
    then through the three preference reads. *)
Ltac run_start w :=
  rewrite <- (logged_nil w) at 2; run_gates.

Ltac run_prefs w :=
  destruct (prefs w !! VERSION_PREF) as [extVersion' |] eqn:?; [| close_steady];
  run_gates;
  destruct (prefs w !! BRANCH_PREF) as [extBranch' |] eqn:?; [| close_steady];
  run_gates;
  destruct (prefs w !! RULESET_VERSION_PREF) as [rulesetVersion' |] eqn:?;
    [| close_steady];
  run_gates.

(** Unless the [branch] of the manifest is the configured branch, the
    run writes log lines only. *)
Lemma other_branch_log_only P update w updateObj extBranch :
  JSON_parse P update = Some updateObj ->
  prefs w !! BRANCH_PREF = Some extBranch ->
  get updateObj "branch" <> Ok (Str extBranch) ->
  log_only w (snd (conditionallyApplyUpdate P update w)).
Proof.
  intros Hparse Hb Hbranch.
  unfold log_only. run_start w. rewrite Hparse. run_gates. run_prefs w.
  destruct (get updateObj "version") as [version |]; [| close_steady].
  run_gates.
  destruct (fst (checkVersionRequirements P extVersion' rulesetVersion' version w))
    as [[|] |]; run_gates; try close_steady.
  destruct (get updateObj "branch") as [branch |]; [| close_steady].
  destruct (strict_eq_str branch extBranch') eqn:Heq; run_gates.
  - apply strict_eq_str_true in Heq. congruence.
  - close_steady.
Qed.

(** C8: a manifest whose [branch] differs from the configured release
    branch is rejected whatever its signature and its version are: the
    run of [conditionallyApplyUpdate] writes log lines only, so that the
    live database, the files and the preferences are as they were and no
    request has been issued. *)
Theorem wrong_branch_is_rejected P update w updateObj extBranch :
  JSON_parse P update = Some updateObj ->
  prefs w !! BRANCH_PREF = Some extBranch ->
  get updateObj "branch" <> Ok (Str extBranch) ->
  mainDB (snd (conditionallyApplyUpdate P update w)) = mainDB w /\
  log_only w (snd (conditionallyApplyUpdate P update w)).
Proof.
  intros Hparse Hb Hbranch.
  pose proof (other_branch_log_only P update w updateObj extBranch Hparse Hb Hbranch)
    as Hlog.
  split; [apply Hlog | exact Hlog].
Qed.

Lemma run_verifyUpdateSignature {B} P updateStr signature (k : bool -> M B) w events :
  bind (verifyUpdateSignature P updateStr signature) k (logged w events) =
  let w' := logged w (events ++
    [Log INFO "Created instance of nsIDAtaSignatureVerifier";
     SigVerify updateStr signature RULESET_UPDATE_KEY]) in
  match verifyData P updateStr signature RULESET_UPDATE_KEY with
  | Some verdict => k verdict w'
  | None => (Throw (NS_ERROR "NS_ERROR_FAILURE"), w')
  end.
Proof.
  unfold verifyUpdateSignature, bind, https_everywhereLog, emit, logged; simpl.
  rewrite <- !app_assoc; simpl.
  by destruct (verifyData P updateStr signature RULESET_UPDATE_KEY).
Qed.

(** When the signature that the attempt obtains does not verify, nothing
    but log lines, requests for the signature and the verification itself
    happens. *)
Lemma unverified_update_is_dropped P update w events :
  (forall signature,
     fetched_signature P w = Some signature ->
     verifyData P update (trim signature) RULESET_UPDATE_KEY <> Some true) ->
  Forall (fun e => no_fetch e = true) events ->
  steady no_fetch w (snd (conditionallyApplyUpdate P update (logged w events))).
Proof.
  intros Hsig Hevents. run_gates.
  destruct (JSON_parse P update) as [updateObj |]; run_gates; [| close_steady].
  run_prefs w.
  destruct (get updateObj "version") as [version |]; [| close_steady].
  run_gates.
  destruct (fst (checkVersionRequirements P extVersion' rulesetVersion' version w))
    as [[|] |]; run_gates; try close_steady.
  destruct (get updateObj "branch") as [branch |]; [| close_steady].
  destruct (strict_eq_str branch extBranch'); run_gates; [| close_steady].
  destruct (prefs w !! RSUPDATE_SIG_URL_PREF) as [sigFileSrc |] eqn:Hsrc;
    [| close_steady].
  unfold try_request.
  match goal with
  | |- context [try_request_from P 0 ?d sigFileSrc ?cb ?w0] =>
      destruct (try_request_from_run P 0 d sigFileSrc cb w0) as (gets & Hgets & ->)
  end.
  rewrite logged_app.
  destruct (first_response P 0 MAX_RSUPDATE_FETCHES sigFileSrc) as [signature |] eqn:Hfirst;
    [| close_steady].
  assert (fetched_signature P w = Some signature) as Hfetched
    by (unfold fetched_signature; by rewrite Hsrc).
  specialize (Hsig signature Hfetched).
  run_gates. rewrite run_verifyUpdateSignature; cbv zeta.
  destruct (verifyData P update (trim signature) RULESET_UPDATE_KEY) as [[|] |];
    [done | run_gates; close_steady | close_steady].
Qed.

(** C2: when the signature document that the attempt obtains does not
    verify against the embedded key (the verifier answers false, or
    raises), [conditionallyApplyUpdate] leaves the live database, the
    files and the preferences as they were and sends no artifact request,
    whatever the manifest says in [source] and [hash] (and in any other
    field); so does the whole attempt, [fetchUpdate], when [update] is
    the manifest it obtains. *)
Theorem rejected_signature_leaves_database P update w :
  (forall signature,
     fetched_signature P w = Some signature ->
     verifyData P update (trim signature) RULESET_UPDATE_KEY <> Some true) ->
  (mainDB (snd (conditionallyApplyUpdate P update w)) = mainDB w /\
   steady no_fetch w (snd (conditionallyApplyUpdate P update w))) /\
  (fetched_manifest P w = Some update ->
   mainDB (snd (fetchUpdate P w)) = mainDB w /\
   steady no_fetch w (snd (fetchUpdate P w))).
Proof.
  intros Hsig. split.
  - assert (steady no_fetch w (snd (conditionallyApplyUpdate P update w))) as Hsteady.
    { rewrite <- (logged_nil w) at 2. by apply unverified_update_is_dropped. }
    split; [apply Hsteady | exact Hsteady].
  - intros Hmanifest. unfold fetched_manifest in Hmanifest.
    assert (steady no_fetch w (snd (fetchUpdate P w))) as Hsteady.
    { rewrite <- (logged_nil w) at 2. unfold fetchUpdate. run_steps.
      destruct (prefs w !! RSUPDATE_URL_PREF) as [manifestSrc |]; [| discriminate].
      unfold try_request.
      match goal with
      | |- context [try_request_from P 0 ?d manifestSrc ?cb ?w0] =>
          destruct (try_request_from_run P 0 d manifestSrc cb w0) as (gets & Hgets & ->)
      end.
      rewrite logged_app, Hmanifest. run_steps.
      apply unverified_update_is_dropped; [done |].
      repeat first
        [ apply Forall_nil_2
        | apply Forall_cons_2; [reflexivity |]
        | apply Forall_app_2
        | apply http_no_fetch; assumption ]. }
    split; [apply Hsteady | exact Hsteady].
Qed.

(** ** The digest of the staged file *)

Lemma length_append s1 s2 :
  String.length (s1 +:+ s2) = (String.length s1 + String.length s2)%nat.
Proof. induction s1 as [| c s1 IH]; simpl; [done | by rewrite IH]. Qed.

Lemma all_chars_append p s1 s2 :
  all_chars p (s1 +:+ s2) = all_chars p s1 && all_chars p s2.
Proof.
  induction s1 as [| c s1 IH]; simpl; [done |].
  by rewrite IH, andb_assoc.
Qed.

(** A byte is rendered by exactly two lowercase hexadecimal digits. *)
Lemma toHexStr_byte (b : byte) :
  String.length (toHexStr (Byte.to_N b)) = 2%nat /\
  all_chars is_lower_hex (toHexStr (Byte.to_N b)) = true.
Proof. destruct b; vm_compute; by split. Qed.

Lemma join_hex (hash : list byte) :
  let hexstr := String.concat EmptyString (map (fun b => toHexStr (Byte.to_N b)) hash) in
  String.length hexstr = (2 * List.length hash)%nat /\
  all_chars is_lower_hex hexstr = true.
Proof.
  induction hash as [| b hash [IHlen IHhex]]; [done |].
  destruct (toHexStr_byte b) as [Hlen Hhex].
  change (String.concat EmptyString
            (map (fun b => toHexStr (Byte.to_N b)) (b :: hash)))
    with (match map (fun b => toHexStr (Byte.to_N b)) hash with
          | [] => toHexStr (Byte.to_N b)
          | _ :: _ => toHexStr (Byte.to_N b) +:+ EmptyString +:+
                      String.concat EmptyString (map (fun b => toHexStr (Byte.to_N b)) hash)
          end).
  destruct hash as [| b' hash]; [by split |].
  cbv zeta in *. cbn [map] in *. cbv beta in *.
  set (rest := String.concat _ _) in *.
  change (EmptyString +:+ rest) with rest.
  rewrite length_append, all_chars_append, Hlen, Hhex, IHlen, IHhex.
  split; [simpl; lia | done].
Qed.

Lemma hashing_init_supported hashfn :
  (exists name, name ∈ supported_hashfn /\ hashfn = Str name) <->
  (exists alg, hashing_init hashfn = Some alg).
Proof.
  split.
  - intros (name & Hin & ->). unfold supported_hashfn in Hin.
    repeat (apply elem_of_cons in Hin as [-> | Hin]; [by eexists |]).
    by apply elem_of_nil in Hin.
  - intros [alg Halg]. unfold hashing_init in Halg.
    repeat match type of Halg with
    | (if strict_eq_str hashfn ?name then _ else _) = _ =>
        destruct (strict_eq_str hashfn name) eqn:Heq;
        [apply strict_eq_str_true in Heq; exists name; split; [| done];
         unfold supported_hashfn; set_solver |]; clear Heq
    end.
    discriminate.
Qed.

(** C10: [hashBinaryFile] returns [null] exactly when [hashfn] is not one
    of [md5], [sha1], [sha256], [sha384], [sha512]; each of the five names
    selects its algorithm, and whenever the staged file holds the [len]
    bytes to hash the function returns, leaving the world as it was, a
    string of lowercase hexadecimal digits, two for each byte of the
    digest; it returns nothing else for these names. *)
Theorem hashBinaryFile_null_iff_unsupported P path len hashfn w :
  (fst (hashBinaryFile P path len hashfn w) = Ok Null <->
   ~ exists name, name ∈ supported_hashfn /\ hashfn = Str name) /\
  (hashing_init (Str "md5") = Some MD5 /\ hashing_init (Str "sha1") = Some SHA1 /\
   hashing_init (Str "sha256") = Some SHA256 /\ hashing_init (Str "sha384") = Some SHA384 /\
   hashing_init (Str "sha512") = Some SHA512) /\
  (forall alg content data,
     hashing_init hashfn = Some alg ->
     files w !! path = Some content ->
     updateFromStream content len = Some data ->
     exists hexstr,
       hashBinaryFile P path len hashfn w = (Ok (Str hexstr), w) /\
       String.length hexstr = (2 * List.length (cryptoHash P alg data))%nat /\
       all_chars is_lower_hex hexstr = true) /\
  (forall alg v w',
     hashing_init hashfn = Some alg ->
     hashBinaryFile P path len hashfn w = (Ok v, w') ->
     exists data hexstr,
       v = Str hexstr /\ w' = w /\
       String.length hexstr = (2 * List.length (cryptoHash P alg data))%nat /\
       all_chars is_lower_hex hexstr = true).
Proof.
  split; [| split; [by repeat split | split]].
  - rewrite hashing_init_supported. unfold hashBinaryFile.
    destruct (hashing_init hashfn) as [alg |].
    + split; [| intros Hno; destruct Hno; by eexists].
      unfold bind, get_files; simpl.
      destruct (files w !! path) as [content |]; [| discriminate].
      by destruct (updateFromStream content len).
    + split; [by intros _ [alg Halg] | done].
  - intros alg content data Halg Hfile Hstream.
    unfold hashBinaryFile, bind, get_files; simpl.
    rewrite Halg, Hfile, Hstream.
    eexists; split; [reflexivity |]. apply join_hex.
  - intros alg v w' Halg. unfold hashBinaryFile, bind, get_files; simpl.
    rewrite Halg.
    destruct (files w !! path) as [content |]; [| discriminate].
    destruct (updateFromStream content len) as [data |]; [| discriminate].
    intros [= <- <-]. exists data. eexists. split; [reflexivity |].
    split; [done | apply join_hex].
Qed.

(** ** The version gate *)

Lemma lastIndexOf_from_absent c s i found :
  all_chars (fun a => negb (Ascii.eqb a c)) s = true ->
  lastIndexOf_from c s i found = found.
Proof.
  revert i found. induction s as [| a s IH]; intros i found Hs; simpl in *; [done |].
  apply andb_prop in Hs as [Ha Hs].
  apply negb_true_iff in Ha. rewrite Ha. by apply IH.
Qed.

Lemma lastIndexOf_from_last c p s i found :
  all_chars (fun a => negb (Ascii.eqb a c)) s = true ->
  lastIndexOf_from c (p +:+ String c s) i found = i + length p.
Proof.
  intros Hs. revert i found.
  induction p as [| a p IH]; intros i found; simpl.
  - rewrite Ascii.eqb_refl, lastIndexOf_from_absent by done.
    unfold length; simpl; lia.
  - rewrite IH. unfold length; simpl String.length. lia.
Qed.

Lemma substring_prefix p s : String.substring 0 (String.length p) (p +:+ s) = p.
Proof.
  induction p as [| a p IH]; simpl; [by destruct s | by rewrite IH].
Qed.

(** The text before the last dot of [parent.last] is [parent]. *)
Lemma slice_to_last_dot_dotted parent last :
  no_dot last = true ->
  slice (parent +:+ "." +:+ last) 0 (lastIndexOf (parent +:+ "." +:+ last) ".") = parent.
Proof.
  intros Hlast. unfold lastIndexOf.
  change (parent +:+ "." +:+ last) with (parent +:+ String "." last).
  rewrite lastIndexOf_from_last by done.
  unfold slice, relative, length. rewrite length_append; simpl String.length.
  rewrite Z.add_0_l.
  rewrite (proj2 (Z.ltb_ge 0 0)), (proj2 (Z.ltb_ge (Z.of_nat (String.length parent)) 0))
    by lia.
  match goal with
  | |- String.substring ?from ?count _ = _ =>
      replace from with 0%nat by lia;
      replace count with (String.length parent) by lia
  end.
  apply substring_prefix.
Qed.

(** C3, as the code has it: the version gate accepts a candidate exactly
    when the text before its last dot compares equal to the installed
    extension version and the candidate compares strictly greater than
    the installed database version, both under the version comparator;
    any other string candidate is rejected.  With the dot-separated
    numeric ordering, installed extension version 1.2.3 and installed
    database version 1.2.0, the candidates 1.2.5, 1.3.0 and 1.2.0 are all
    rejected (the parent of 1.2.5 is 1.2, not 1.2.3) and the candidate
    1.2.3.1 is accepted. *)
Theorem version_gate_accepts_iff P extVersion rsVersion newVersion :
  (accepts P extVersion rsVersion (Str newVersion) <->
   versionCompare P extVersion (slice newVersion 0 (lastIndexOf newVersion ".")) = 0 /\
   versionCompare P newVersion rsVersion > 0) /\
  (rejects P extVersion rsVersion (Str newVersion) <->
   ~ accepts P extVersion rsVersion (Str newVersion)) /\
  (forall parent last,
     no_dot last = true ->
     slice (parent +:+ "." +:+ last) 0 (lastIndexOf (parent +:+ "." +:+ last) ".") = parent) /\
  (versionCompare P = Version.compare ->
   rejects P "1.2.3" "1.2.0" (Str "1.2.5") /\
   rejects P "1.2.3" "1.2.0" (Str "1.3.0") /\
   rejects P "1.2.3" "1.2.0" (Str "1.2.0") /\
   accepts P "1.2.3" "1.2.0" (Str "1.2.3.1")).
Proof.
  assert (forall w,
    fst (checkVersionRequirements P extVersion rsVersion (Str newVersion) w) =
    Ok ((versionCompare P extVersion (slice newVersion 0 (lastIndexOf newVersion ".")) =? 0) &&
        (versionCompare P newVersion rsVersion >? 0))) as Hrun
    by (intros w; apply checkVersionRequirements_str).
  assert (accepts P extVersion rsVersion (Str newVersion) <->
    versionCompare P extVersion (slice newVersion 0 (lastIndexOf newVersion ".")) = 0 /\
    versionCompare P newVersion rsVersion > 0) as Hacc.
  { unfold accepts. split.
    - intros H. specialize (H Demo.world). rewrite Hrun in H.
      injection H as H. apply andb_prop in H as [H1 H2]. split; lia.
    - intros [H1 H2] w. rewrite Hrun. f_equal. apply andb_true_intro. split; lia. }
  split; [exact Hacc | split; [| split; [apply slice_to_last_dot_dotted |]]].
  - rewrite Hacc. unfold rejects. split.
    + intros H [H1 H2]. specialize (H Demo.world). rewrite Hrun in H.
      injection H as H. apply andb_false_iff in H as [H | H]; lia.
    + intros H w. rewrite Hrun. f_equal. apply not_true_is_false. intros Hb.
      apply H. apply andb_prop in Hb as [H1 H2]. split; lia.
  - intros Hcmp. unfold rejects, accepts.
    repeat split; intros w; rewrite checkVersionRequirements_str, Hcmp; reflexivity.
Qed.

(** C3, counterexample: with installed extension version 1.2.3 and
    installed database version 1.2.0 the candidate 1.2.5 is not accepted,
    because its parent component 1.2 is not the version 1.2.3. *)
Lemma candidate_1_2_5_is_rejected :
  fst (checkVersionRequirements (Demo.served Demo.update_ok) "1.2.3" "1.2.0" (Str "1.2.5")
         Demo.world) = Ok false /\
  slice "1.2.5" 0 (lastIndexOf "1.2.5" ".") = "1.2" /\
  Version.compare "1.2.3" "1.2" = 1 /\
  ~ accepts (Demo.served Demo.update_ok) "1.2.3" "1.2.0" (Str "1.2.5").
Proof.
  repeat split.
  intros Hacc. specialize (Hacc Demo.world). discriminate Hacc.
Qed.

(** ** The preferences are never written *)

Lemma fetchUpdate_same_prefs P : respects same_prefs (fetchUpdate P).
Proof.
  apply (fetchUpdate_respects same_prefs emit_same_prefs set_files_same_prefs
           set_mainDB_same_prefs).
Qed.

Lemma conditionallyApplyUpdate_same_prefs P update :
  respects same_prefs (conditionallyApplyUpdate P update).
Proof.
  apply (conditionallyApplyUpdate_respects same_prefs emit_same_prefs
           set_files_same_prefs set_mainDB_same_prefs).
Qed.

(** ** [applyNewRuleset] never returns *)

Lemma raises_bind_l {A B} (m : M A) (k : A -> M B) : raises m -> raises (bind m k).
Proof.
  intros Hm w. destruct (Hm w) as [e He]. exists e. unfold bind.
  destruct (m w) as [[a | e'] w']; simpl in *; [discriminate He | congruence].
Qed.

Lemma raises_bind_r {A B} (m : M A) (k : A -> M B) :
  (forall a, raises (k a)) -> raises (bind m k).
Proof.
  intros Hk w. unfold bind.
  destruct (m w) as [[a | e] w']; [apply Hk | by exists e].
Qed.

Lemma createInstance_nsILocalFIle_raises : raises createInstance_nsILocalFIle.
Proof. intros w. by eexists. Qed.

(** The misspelt interface alone stops every run of [applyNewRuleset]
    before the staged file is removed and the rule index reloaded. *)
Lemma applyNewRuleset_raises P : raises (applyNewRuleset P).
Proof.
  unfold applyNewRuleset.
  repeat first
    [ solve [apply raises_bind_l; exact createInstance_nsILocalFIle_raises]
    | apply raises_bind_r; intros ? ].
Qed.

(** The statements of [applyNewRuleset] name their tables in lower
    case. *)
Ltac fold_names :=
  change (Sql.fold_name "rulesets") with "rulesets";
  change (Sql.fold_name "targets") with "targets".

(** After both drops succeeded, the table [targets] is gone and the
    insert statement cannot be prepared: the live database is left with
    neither table. *)
Lemma applyNewRuleset_leaves_no_table P w content tempDB selected :
  is_Some (mainDB w !! "rulesets") -> is_Some (mainDB w !! "targets") ->
  files w !! TMP_RULESET_DBFILE_PATH P = Some content ->
  sqlite_read P content = Some tempDB ->
  Sql.select ["host"; "ruleset_id"] "targets" tempDB = Some selected ->
  fst (applyNewRuleset P w) = Throw (NS_ERROR "NS_ERROR_FAILURE") /\
  mainDB (snd (applyNewRuleset P w)) = delete "targets" (delete "rulesets" (mainDB w)).
Proof.
  intros [rulesets Hr] [targets Ht] Hfile Hread Hsel.
  unfold applyNewRuleset, openDatabase, drop_main, prepare_select, prepare_insert.
  unfold bind, https_everywhereLog, emit, get_files, get_mainDB, set_mainDB, ret, throw;
    simpl.
  rewrite Hfile, Hread; simpl.
  unfold Sql.drop_table, Sql.table; fold_names. rewrite Hr; simpl.
  rewrite lookup_delete_ne by done. rewrite Ht; simpl.
  rewrite Hsel; simpl.
  unfold Sql.can_insert, Sql.table; fold_names. by rewrite lookup_delete_eq.
Qed.

(** ** A manifest of the wrong shape *)

#[local] Instance extends_preorder : PreOrder extends.
Proof.
  split.
  - intros w. exists []. by rewrite app_nil_r.
  - intros w1 w2 w3 [ev1 H1] [ev2 H2]. exists (ev1 ++ ev2)%list.
    by rewrite H2, H1, <- app_assoc.
Qed.

#[local] Hint Resolve extends_preorder : frame.

Lemma emit_extends e : respects extends (emit e).
Proof. intros w. by exists [e]. Qed.

Lemma set_files_extends f : respects extends (set_files f).
Proof. intros w. exists []; simpl. by rewrite app_nil_r. Qed.

Lemma set_mainDB_extends db : respects extends (set_mainDB db).
Proof. intros w. exists []; simpl. by rewrite app_nil_r. Qed.

Ltac extends_rules :=
  first [ typeclasses eauto | apply emit_extends | apply set_files_extends
        | apply set_mainDB_extends ].

Lemma verifyUpdateSignature_extends P updateStr signature :
  respects extends (verifyUpdateSignature P updateStr signature).
Proof. apply verifyUpdateSignature_respects; extends_rules. Qed.

Lemma fetchRulesetDBFile_extends P url hashfn hash :
  respects extends (fetchRulesetDBFile P url hashfn hash).
Proof. apply fetchRulesetDBFile_respects; extends_rules. Qed.

Lemma log_extends level message : respects extends (https_everywhereLog level message).
Proof. apply emit_extends. Qed.

Lemma try_request_from_step P k depth url callback :
  try_request_from P k (S depth) url callback =
  (emit (HttpGet url) ;;
   match http_get P url k with
   | Some responseText => callback responseText
   | None => try_request_from P (S k) depth url callback
   end).
Proof. done. Qed.

Lemma get_throws_TypeError o k e : get o k = Throw e -> e = TypeError.
Proof. destruct o; simpl; congruence. Qed.

Lemma unusable_version_throws P extVersion rsVersion version w :
  unusable_version version = true ->
  fst (checkVersionRequirements P extVersion rsVersion version w) = Throw TypeError.
Proof.
  intros Hv. unfold checkVersionRequirements, bind, lift; simpl. by destruct version.
Qed.


(** ** The script on the example platform *)

(** Decides that an event occurs in a trace that computes. *)
Ltac in_trace :=
  apply list_elem_of_In; vm_compute;
  repeat first [left; reflexivity | right].

(** C1, the code at the failing input: the manifest announces the hash
    [00], the staged artifact has another digest, and the run logs that
    the hashes match, enters [applyNewRuleset], drops both tables of the
    live database and leaves the staged file behind.  The [hash] argument
    of [fetchRulesetDBFile] is never read. *)
Theorem digest_mismatch_still_applies :
  let P := Demo.served Demo.update_bad_hash in
  let w' := snd (fetchUpdate P Demo.world) in
  (forall P url hashfn hash hash',
     fetchRulesetDBFile P url hashfn hash = fetchRulesetDBFile P url hashfn hash') /\
  Log INFO ("dbhash = " +:+ Demo.good_hash) ∈ trace w' /\
  Demo.good_hash <> "00" /\
  Log INFO "Hash of database file downloaded matches the hash provided by update.json"
    ∈ trace w' /\
  Log INFO "In applyNewRuleset" ∈ trace w' /\
  mainDB Demo.world = Demo.installed /\
  mainDB w' = ∅ /\
  files w' !! TMP_RULESET_DBFILE_PATH P = Some Demo.artifact.
Proof.
  cbv zeta. repeat split; try in_trace; try (vm_compute; reflexivity).
  vm_compute; discriminate.
Qed.

(** C4, the code at the failing input: for the digest name [sha3]
    [hashBinaryFile] returns [null], which is logged, and the run goes on
    into [applyNewRuleset], which drops both tables of the live database. *)
Theorem unsupported_digest_still_applies :
  let P := Demo.served Demo.update_sha3 in
  let w' := snd (fetchUpdate P Demo.world) in
  fst (hashBinaryFile P (TMP_RULESET_DBFILE_PATH P) 3 (Str "sha3") w') = Ok Null /\
  Log INFO "dbhash = null" ∈ trace w' /\
  Log INFO "In applyNewRuleset" ∈ trace w' /\
  mainDB Demo.world = Demo.installed /\
  mainDB w' = ∅ /\
  files w' !! TMP_RULESET_DBFILE_PATH P = Some Demo.artifact.
Proof.
  cbv zeta. repeat split; try in_trace; vm_compute; reflexivity.
Qed.

(** C5, the code at the failing input: a [source] with the [http:]
    scheme is requested like any other, its answer is staged and
    [applyNewRuleset] is entered. *)
Theorem plain_http_source_is_fetched :
  let P := Demo.served Demo.update_http in
  let w' := snd (fetchUpdate P Demo.world) in
  XhrSend "http://example.org/new_rulesets.sqlite" ∈ trace w' /\
  Log INFO "In applyNewRuleset" ∈ trace w' /\
  files w' !! TMP_RULESET_DBFILE_PATH P = Some Demo.artifact /\
  mainDB Demo.world = Demo.installed /\
  mainDB w' = ∅.
Proof.
  cbv zeta. repeat split; try in_trace; vm_compute; reflexivity.
Qed.


(** ** The theorems at concrete inputs *)

(** C2 on the example platform: the server answers the newer, rightly
    hashed manifest with a signature that is not its own. *)
Lemma rejected_signature_witness :
  fetched_manifest (Demo.forged Demo.update_ok) Demo.world = Some Demo.update_ok /\
  fetched_signature (Demo.forged Demo.update_ok) Demo.world = Some "sig:0" /\
  verifyData (Demo.forged Demo.update_ok) Demo.update_ok (trim "sig:0") RULESET_UPDATE_KEY =
    Some false /\
  mainDB (snd (fetchUpdate (Demo.forged Demo.update_ok) Demo.world)) = mainDB Demo.world /\
  steady no_fetch Demo.world (snd (fetchUpdate (Demo.forged Demo.update_ok) Demo.world)).
Proof.
  split; [vm_compute; reflexivity |]. split; [vm_compute; reflexivity |].
  split; [vm_compute; reflexivity |].
  apply (rejected_signature_leaves_database (Demo.forged Demo.update_ok) Demo.update_ok
           Demo.world).
  - intros signature Hfetched. vm_compute in Hfetched.
    injection Hfetched as <-. vm_compute. discriminate.
  - vm_compute; reflexivity.
Defined.

(** C3 on the example platform, whose comparator is [Version.compare]. *)
Lemma version_gate_witness :
  no_dot "1" = true /\
  slice ("1.2.3" +:+ "." +:+ "1") 0 (lastIndexOf ("1.2.3" +:+ "." +:+ "1") ".") = "1.2.3" /\
  rejects (Demo.served Demo.update_ok) "1.2.3" "1.2.0" (Str "1.2.5") /\
  rejects (Demo.served Demo.update_ok) "1.2.3" "1.2.0" (Str "1.3.0") /\
  rejects (Demo.served Demo.update_ok) "1.2.3" "1.2.0" (Str "1.2.0") /\
  accepts (Demo.served Demo.update_ok) "1.2.3" "1.2.0" (Str "1.2.3.1").
Proof.
  destruct (version_gate_accepts_iff (Demo.served Demo.update_ok) "1.2.3" "1.2.0" "1.2.3.1")
    as (_ & _ & Hparent & Hexamples).
  split; [reflexivity |].
  split; [apply Hparent; reflexivity |].
  apply Hexamples. reflexivity.
Defined.

(** C8 on the example platform: a genuinely signed, newer release for
    this extension, on the branch [beta] while [stable] is configured. *)
Lemma wrong_branch_witness :
  JSON_parse (Demo.served Demo.update_beta) Demo.update_beta =
    Some (Demo.parsed Demo.update_beta) /\
  get (Demo.parsed Demo.update_beta) "branch" = Ok (Str "beta") /\
  prefs Demo.world !! BRANCH_PREF = Some "stable" /\
  accepts (Demo.served Demo.update_beta) "3.4.5" "3.4.5.1" (Str "3.4.5.2") /\
  verifyData (Demo.served Demo.update_beta) Demo.update_beta (Demo.sign Demo.update_beta)
    RULESET_UPDATE_KEY = Some true /\
  mainDB (snd (conditionallyApplyUpdate (Demo.served Demo.update_beta) Demo.update_beta
                 Demo.world)) = mainDB Demo.world /\
  log_only Demo.world
    (snd (conditionallyApplyUpdate (Demo.served Demo.update_beta) Demo.update_beta
            Demo.world)).
Proof.
  split; [vm_compute; reflexivity |]. split; [vm_compute; reflexivity |].
  split; [vm_compute; reflexivity |].
  split; [intros w; rewrite checkVersionRequirements_str; vm_compute; reflexivity |].
  split; [vm_compute; reflexivity |].
  apply (wrong_branch_is_rejected (Demo.served Demo.update_beta) Demo.update_beta
           Demo.world (Demo.parsed Demo.update_beta) "stable").
  - vm_compute; reflexivity.
  - vm_compute; reflexivity.
  - vm_compute; discriminate.
Defined.

(** C9 on the example platform: the release that is already installed is
    rejected by the version gate. *)
Lemma gates_witness :
  rejects (Demo.served Demo.update_stale) "3.4.5" "3.4.5.1" (Str "3.4.5.1") /\
  exists events,
    conditionallyApplyUpdate (Demo.served Demo.update_stale) Demo.update_stale Demo.world =
      (Ok tt, logged Demo.world events) /\
    Forall (fun e => is_log e = true) events /\
    (forall url, HttpGet url ∉ events) /\
    (forall data signature key, SigVerify data signature key ∉ events).
Proof.
  assert (rejects (Demo.served Demo.update_stale) "3.4.5" "3.4.5.1" (Str "3.4.5.1"))
    as Hrejects
    by (intros w; rewrite checkVersionRequirements_str; vm_compute; reflexivity).
  split; [exact Hrejects |].
  apply (signature_fetched_only_after_gates (Demo.served Demo.update_stale)
           Demo.update_stale Demo.world (Demo.parsed Demo.update_stale)
           "3.4.5" "stable" "3.4.5.1" (Str "3.4.5.1")).
  - vm_compute; reflexivity.
  - vm_compute; reflexivity.
  - vm_compute; reflexivity.
  - vm_compute; reflexivity.
  - vm_compute; reflexivity.
  - left. exact Hrejects.
Defined.

(** C10 on the example platform: the SHA-256 digest of the staged
    artifact, 32 bytes, is returned as 64 hexadecimal digits. *)
Lemma hashBinaryFile_witness :
  fst (hashBinaryFile (Demo.served Demo.update_ok) "/tmp/new_rulesets.sqlite" 3
         (Str "sha3") Demo.staged) = Ok Null /\
  exists hexstr,
    hashBinaryFile (Demo.served Demo.update_ok) "/tmp/new_rulesets.sqlite" 3
      (Str "sha256") Demo.staged = (Ok (Str hexstr), Demo.staged) /\
    String.length hexstr =
      (2 * List.length (cryptoHash (Demo.served Demo.update_ok) SHA256 Demo.artifact))%nat /\
    all_chars is_lower_hex hexstr = true.
Proof.
  split; [reflexivity |].
  destruct (hashBinaryFile_null_iff_unsupported (Demo.served Demo.update_ok)
              "/tmp/new_rulesets.sqlite" 3 (Str "sha256") Demo.staged)
    as (_ & _ & Hhex & _).
  apply (Hhex SHA256 Demo.artifact Demo.artifact); vm_compute; reflexivity.
Defined.


(** ** What [applyNewRuleset] does to the world *)

(** Closes a goal on a trace that grew by log lines. *)
Ltac logs_only :=
  eexists; split;
  [ simpl; rewrite <- ?app_assoc; reflexivity
  | repeat first [apply Forall_nil_2 | apply Forall_cons_2; [reflexivity |]] ].

(** Closes one case of [applyNewRuleset_cases]. *)
Ltac apply_case :=
  split; [by eexists |];
  split; [reflexivity |];
  split; [logs_only |];
  split;
  [ first [left; reflexivity | right; split; [first [assumption | reflexivity] | reflexivity]]
  | split;
    [ first [left; reflexivity | right; left; reflexivity | right; right; reflexivity]
    | intros Hnone; first [reflexivity | discriminate Hnone] ] ].

(** Every run of [applyNewRuleset], by cases on where it stops. *)
Lemma applyNewRuleset_cases P w :
  (exists e, fst (applyNewRuleset P w) = Throw e) /\
  prefs (snd (applyNewRuleset P w)) = prefs w /\
  (exists events,
     trace (snd (applyNewRuleset P w)) =
       (trace w ++ Log INFO "In applyNewRuleset" :: events)%list /\
     Forall (fun e => is_log e = true) events) /\
  (files (snd (applyNewRuleset P w)) = files w \/
   files w !! TMP_RULESET_DBFILE_PATH P = None /\
   files (snd (applyNewRuleset P w)) = <[TMP_RULESET_DBFILE_PATH P := []]> (files w)) /\
  (mainDB (snd (applyNewRuleset P w)) = mainDB w \/
   mainDB (snd (applyNewRuleset P w)) = delete "rulesets" (mainDB w) \/
   mainDB (snd (applyNewRuleset P w)) = delete "targets" (delete "rulesets" (mainDB w))) /\
  (mainDB w !! "rulesets" = None -> mainDB (snd (applyNewRuleset P w)) = mainDB w).
Proof.
  unfold applyNewRuleset, openDatabase, drop_main, prepare_select, prepare_insert.
  unfold bind, https_everywhereLog, emit, get_files, get_mainDB, set_mainDB, set_files,
    ret, throw; simpl.
  destruct (files w !! TMP_RULESET_DBFILE_PATH P) as [content |] eqn:Hfile; simpl.
  - destruct (sqlite_read P content) as [tempDB |]; simpl.
    2: { apply_case. }
    unfold Sql.drop_table, Sql.table; fold_names.
    destruct (mainDB w !! "rulesets") as [rulesets |]; simpl.
    2: { apply_case. }
    rewrite lookup_delete_ne by done.
    destruct (mainDB w !! "targets") as [targets |]; simpl.
    2: { apply_case. }
    destruct (Sql.select ["host"; "ruleset_id"] "targets" tempDB) as [selected |]; simpl.
    2: { apply_case. }
    unfold Sql.can_insert, Sql.table; fold_names. rewrite lookup_delete_eq; simpl.
    apply_case.
  - unfold Sql.drop_table, Sql.table; fold_names.
    destruct (mainDB w !! "rulesets") as [rulesets |]; simpl.
    2: { apply_case. }
    rewrite lookup_delete_ne by done.
    destruct (mainDB w !! "targets") as [targets |]; simpl.
    2: { apply_case. }
    unfold Sql.select, Sql.table; fold_names. rewrite lookup_empty. simpl.
    apply_case.
Qed.

(** X1: every run of [applyNewRuleset] ends in an exception, and until
    then it has written log lines only: the rule index is never
    reloaded, no preference is written, and a staged file that was there
    is still there, unchanged, when the run ends. *)
Theorem applyNewRuleset_never_completes P w :
  (exists e, fst (applyNewRuleset P w) = Throw e) /\
  prefs (snd (applyNewRuleset P w)) = prefs w /\
  (exists events,
     trace (snd (applyNewRuleset P w)) = (trace w ++ events)%list /\
     Forall (fun e => is_log e = true) events /\ RulesInit ∉ events) /\
  (forall content,
     files w !! TMP_RULESET_DBFILE_PATH P = Some content ->
     files (snd (applyNewRuleset P w)) = files w).
Proof.
  destruct (applyNewRuleset_cases P w)
    as (Hraise & Hprefs & (events & Htrace & Hlogs) & Hfiles & _ & _).
  split; [exact Hraise |]. split; [exact Hprefs |]. split.
  - exists (Log INFO "In applyNewRuleset" :: events).
    split; [exact Htrace |]. split; [by constructor |].
    intros Hin. apply elem_of_cons in Hin as [Hin | Hin]; [discriminate |].
    by apply (proj1 (Forall_forall _ _) Hlogs) in Hin.
  - intros content Hfile. destruct Hfiles as [Hsame | [Hnone _]]; [exact Hsame |].
    congruence.
Qed.

(** X2: [applyNewRuleset] inserts nothing.  After any run each table of
    the live database, under whatever spelling of its name, is either
    gone or exactly as it was; only the tables that [rulesets] and
    [targets] name, in any case of their letters, can be gone; and when
    the live database has no table [rulesets] it is left as it was. *)
Theorem applyNewRuleset_never_inserts P w :
  (forall name,
     Sql.table name (mainDB (snd (applyNewRuleset P w))) = None \/
     Sql.table name (mainDB (snd (applyNewRuleset P w))) = Sql.table name (mainDB w)) /\
  (forall name,
     Sql.fold_name name <> "rulesets" -> Sql.fold_name name <> "targets" ->
     Sql.table name (mainDB (snd (applyNewRuleset P w))) = Sql.table name (mainDB w)) /\
  (forall name,
     Sql.fold_name name = "rulesets" -> Sql.table name (mainDB w) = None ->
     mainDB (snd (applyNewRuleset P w)) = mainDB w).
Proof.
  destruct (applyNewRuleset_cases P w) as (_ & _ & _ & _ & Hdb & Hnone).
  unfold Sql.table. split; [| split].
  - intros name. generalize (Sql.fold_name name); intros t.
    destruct Hdb as [-> | [-> | ->]]; [by right | |].
    + destruct (decide (t = "rulesets")) as [-> | Hne];
        [left; apply lookup_delete_eq | right; by apply lookup_delete_ne].
    + destruct (decide (t = "targets")) as [-> | Hne1]; [left; apply lookup_delete_eq |].
      rewrite lookup_delete_ne by done.
      destruct (decide (t = "rulesets")) as [-> | Hne2];
        [left; apply lookup_delete_eq | right; by apply lookup_delete_ne].
  - intros name Hr Ht. destruct Hdb as [-> | [-> | ->]]; [done | |].
    + by rewrite lookup_delete_ne.
    + by rewrite !lookup_delete_ne.
  - intros name -> Habsent. exact (Hnone Habsent).
Qed.

(** ** Staging and hashing the artifact *)

Lemma hashBinaryFile_pure P path len hashfn w :
  snd (hashBinaryFile P path len hashfn w) = w.
Proof.
  unfold hashBinaryFile, bind, get_files; simpl.
  destruct (hashing_init hashfn); [| done].
  destruct (files w !! path) as [content |]; [| done].
  by destruct (updateFromStream content len).
Qed.

(** Reading back as many bytes as a non-empty file holds gives the file. *)
Lemma updateFromStream_whole (bytes : list byte) :
  bytes <> [] -> updateFromStream bytes (N.of_nat (List.length bytes)) = Some bytes.
Proof.
  intros Hne. unfold updateFromStream.
  assert (N.of_nat (List.length bytes) <> 0%N) as Hlen
    by (destruct bytes; [done | simpl; lia]).
  destruct (N.of_nat (List.length bytes) =? 4294967295)%N;
    rewrite (proj2 (N.eqb_neq _ _) Hlen), N.ltb_irrefl; simpl;
    by rewrite Nat2N.id, firstn_all.
Qed.

(** After data has been received the staged file holds it, whatever
    happens next. *)
Lemma onload_files P byteArray hashfn hash w :
  files (snd (onload P (Some byteArray) hashfn hash w)) =
    <[TMP_RULESET_DBFILE_PATH P := byteArray]> (files w) /\
  prefs (snd (onload P (Some byteArray) hashfn hash w)) = prefs w.
Proof.
  split.
  2: { apply (onload_respects same_prefs); first
         [ typeclasses eauto | apply emit_same_prefs | apply set_files_same_prefs
         | apply set_mainDB_same_prefs ]. }
  unfold onload. unfold bind at 1 2 3; simpl.
  unfold bind at 1.
  match goal with
  | |- context [hashBinaryFile P ?path ?n hashfn ?w1] =>
      pose proof (hashBinaryFile_pure P path n hashfn w1) as Hpure;
      destruct (hashBinaryFile P path n hashfn w1) as [[dbHash | e] w2]
  end; simpl in Hpure; subst w2; [| done].
  rewrite run_lift. destruct (ToString dbHash) as [shown |]; [| done].
  unfold bind, https_everywhereLog, emit; simpl.
  match goal with
  | |- context [applyNewRuleset P ?w3] =>
      destruct (applyNewRuleset_cases P w3) as (_ & _ & _ & Hfiles & _)
  end.
  simpl in *.
  destruct Hfiles as [Hsame | [Hnone _]]; [exact Hsame |].
  by rewrite lookup_insert_eq in Hnone.
Qed.

Lemma hashBinaryFile_staged P path hashfn alg (bytes : list byte) w :
  hashing_init hashfn = Some alg ->
  files w !! path = Some bytes ->
  bytes <> [] ->
  hashBinaryFile P path (N.of_nat (List.length bytes)) hashfn w =
  (Ok (Str (String.concat EmptyString
              (map (fun b => toHexStr (Byte.to_N b)) (cryptoHash P alg bytes)))), w).
Proof.
  intros Halg Hfile Hne. unfold hashBinaryFile, bind, get_files; simpl.
  by rewrite Halg, Hfile, updateFromStream_whole.
Qed.

(** X5: the manifest's [hash] never stops [onload].  For a digest name
    the script knows and a non-empty response, [onload] logs the digest
    of exactly the bytes it received, then that the hashes match, and
    enters [applyNewRuleset], whatever [hash] is; nothing but log lines
    follows. *)
Theorem onload_applies_whatever_the_hash P byteArray hashfn hash alg w :
  hashing_init hashfn = Some alg ->
  byteArray <> [] ->
  exists events,
    trace (snd (onload P (Some byteArray) hashfn hash w)) =
      (trace w ++
       [Log INFO ("byteArray has length " +:+ pretty (N.of_nat (List.length byteArray)));
        Log INFO ("dbhash = " +:+
                  String.concat EmptyString
                    (map (fun b => toHexStr (Byte.to_N b)) (cryptoHash P alg byteArray)));
        Log INFO "Hash of database file downloaded matches the hash provided by update.json";
        Log INFO "In applyNewRuleset"] ++ events)%list /\
    Forall (fun e => is_log e = true) events.
Proof.
  intros Halg Hne.
  unfold onload. unfold bind at 1 2 3; simpl. unfold bind at 1.
  rewrite (hashBinaryFile_staged P _ hashfn alg byteArray) by
    (first [done | simpl; apply lookup_insert_eq]).
  rewrite run_lift; simpl ToString; cbv iota beta.
  unfold bind, https_everywhereLog, emit; simpl.
  match goal with
  | |- context [applyNewRuleset P ?w3] =>
      destruct (applyNewRuleset_cases P w3) as (_ & _ & (events & Htrace & Hlogs) & _)
  end.
  exists events. split; [| exact Hlogs].
  rewrite Htrace; simpl. by rewrite <- !app_assoc.
Qed.

(** X6: a digest name the script does not know does not stop [onload]
    either: it logs [dbhash = null], then that the hashes match, and
    enters [applyNewRuleset]. *)
Theorem onload_applies_without_a_digest P byteArray hashfn hash w :
  hashing_init hashfn = None ->
  exists events,
    trace (snd (onload P (Some byteArray) hashfn hash w)) =
      (trace w ++
       [Log INFO ("byteArray has length " +:+ pretty (N.of_nat (List.length byteArray)));
        Log INFO "dbhash = null";
        Log INFO "Hash of database file downloaded matches the hash provided by update.json";
        Log INFO "In applyNewRuleset"] ++ events)%list /\
    Forall (fun e => is_log e = true) events.
Proof.
  intros Halg.
  unfold onload. unfold bind at 1 2 3; simpl. unfold bind at 1.
  unfold hashBinaryFile. rewrite Halg.
  unfold ret at 1. cbv iota beta.
  rewrite run_lift; simpl ToString; cbv iota beta.
  unfold bind, https_everywhereLog, emit; simpl.
  match goal with
  | |- context [applyNewRuleset P ?w3] =>
      destruct (applyNewRuleset_cases P w3) as (_ & _ & (events & Htrace & Hlogs) & _)
  end.
  exists events. split; [| exact Hlogs].
  rewrite Htrace; simpl. by rewrite <- !app_assoc.
Qed.

Lemma hashBinaryFile_empty P path len hashfn alg w :
  hashing_init hashfn = Some alg ->
  files w !! path = Some [] ->
  hashBinaryFile P path len hashfn w = (Throw (NS_ERROR "NS_ERROR_NOT_AVAILABLE"), w).
Proof.
  intros Halg Hfile. unfold hashBinaryFile, bind, get_files; simpl.
  rewrite Halg, Hfile. unfold updateFromStream; simpl.
  by destruct (len =? 4294967295)%N.
Qed.

(** X7: an empty response is staged but, under a digest name the script
    knows, not applied: the hashing component finds no data in the staged
    file and raises, so that the live database is as it was. *)
Theorem onload_empty_response P hashfn hash alg w :
  hashing_init hashfn = Some alg ->
  fst (onload P (Some []) hashfn hash w) = Throw (NS_ERROR "NS_ERROR_NOT_AVAILABLE") /\
  mainDB (snd (onload P (Some []) hashfn hash w)) = mainDB w /\
  files (snd (onload P (Some []) hashfn hash w)) =
    <[TMP_RULESET_DBFILE_PATH P := []]> (files w) /\
  (forall level, Log level "In applyNewRuleset" ∉ trace w ->
                 Log level "In applyNewRuleset" ∉ trace (snd (onload P (Some []) hashfn hash w))).
Proof.
  intros Halg.
  assert (onload P (Some []) hashfn hash w =
          (Throw (NS_ERROR "NS_ERROR_NOT_AVAILABLE"),
           {| prefs := prefs w;
              files := <[TMP_RULESET_DBFILE_PATH P := []]> (files w);
              mainDB := mainDB w;
              trace := trace w ++ [Log INFO ("byteArray has length " +:+ pretty 0%N)] |}))
    as Hrun.
  { unfold onload. unfold bind at 1 2 3; simpl. unfold bind at 1.
    by rewrite (hashBinaryFile_empty P _ _ hashfn alg) by
      (first [done | simpl; apply lookup_insert_eq]). }
  rewrite Hrun; simpl.
  split; [reflexivity |]. split; [reflexivity |]. split; [reflexivity |].
  intros level Hnot Hin. apply elem_of_app in Hin as [Hin | Hin]; [done |].
  apply list_elem_of_singleton in Hin. discriminate.
Qed.

(** X4: whatever was staged before, and however the run ends, after
    [onload] has received data the staged file holds exactly the bytes
    received, no other file is touched and no preference is written. *)
Theorem onload_stages_the_response P byteArray hashfn hash w path :
  files (snd (onload P (Some byteArray) hashfn hash w)) !! TMP_RULESET_DBFILE_PATH P =
    Some byteArray /\
  (path <> TMP_RULESET_DBFILE_PATH P ->
   files (snd (onload P (Some byteArray) hashfn hash w)) !! path = files w !! path) /\
  prefs (snd (onload P (Some byteArray) hashfn hash w)) = prefs w.
Proof.
  destruct (onload_files P byteArray hashfn hash w) as [-> Hprefs].
  split; [apply lookup_insert_eq |]. split; [| exact Hprefs].
  intros Hne. by apply lookup_insert_ne.
Qed.

(** ** The events of the artifact stage *)

Lemma onload_events P response hashfn hash w :
  exists events,
    trace (snd (onload P response hashfn hash w)) = (trace w ++ events)%list /\
    Forall (fun e => is_log e = true) events.
Proof.
  destruct response as [byteArray |]; [| logs_only].
  unfold onload. unfold bind at 1 2 3; simpl. unfold bind at 1.
  match goal with
  | |- context [hashBinaryFile P ?path ?n hashfn ?w1] =>
      pose proof (hashBinaryFile_pure P path n hashfn w1) as Hpure;
      destruct (hashBinaryFile P path n hashfn w1) as [[dbHash | e] w2]
  end; simpl in Hpure; subst w2; [| logs_only].
  rewrite run_lift. destruct (ToString dbHash) as [shown |]; [| logs_only].
  unfold bind, https_everywhereLog, emit; simpl.
  match goal with
  | |- context [applyNewRuleset P ?w3] =>
      destruct (applyNewRuleset_cases P w3) as (_ & _ & (events & Htrace & Hlogs) & _)
  end.
  rewrite Htrace; simpl. rewrite <- !app_assoc.
  eexists; split; [reflexivity |].
  repeat first [apply Forall_cons_2; [reflexivity |] | exact Hlogs].
Qed.

Lemma log_fetch_event url events :
  Forall (fun e => is_log e = true) events ->
  Forall (fun e => fetch_event url e = true) events.
Proof. intros Hlogs. eapply Forall_impl; [exact Hlogs | by intros []]. Qed.

(** [fetchRulesetDBFile] shows log lines and at most the request for the
    text of [url]; it shows nothing when that text cannot be made. *)
Lemma fetchRulesetDBFile_events P url hashfn hash w :
  exists events,
    trace (snd (fetchRulesetDBFile P url hashfn hash w)) = (trace w ++ events)%list /\
    match ToString url with
    | Ok shown => Forall (fun e => fetch_event shown e = true) events
    | Throw _ => events = []
    end.
Proof.
  unfold fetchRulesetDBFile. rewrite run_lift.
  destruct (ToString url) as [shown |]; [| exists []; by rewrite app_nil_r].
  unfold bind at 1. unfold https_everywhereLog at 1, emit at 1. cbv iota beta.
  destruct (xhr P shown) as [| | response].
  - eexists; split; [reflexivity | by repeat constructor].
  - eexists; split; [simpl; rewrite <- app_assoc; reflexivity |].
    repeat constructor. simpl. by rewrite String.eqb_refl.
  - unfold bind at 1, emit at 1. cbv iota beta.
    match goal with
    | |- context [onload P response hashfn hash ?w1] =>
        destruct (onload_events P response hashfn hash w1) as (events & Htrace & Hlogs)
    end.
    rewrite Htrace; simpl. rewrite <- !app_assoc.
    eexists; split; [reflexivity |].
    apply Forall_cons_2; [reflexivity |].
    apply Forall_cons_2; [simpl; by rewrite String.eqb_refl |].
    by apply log_fetch_event.
Qed.

(** X8: when no data arrives nothing is staged and nothing applied.  If
    the request cannot be opened [fetchRulesetDBFile] raises before
    sending; if the request ends without a [load] event, or [onload]
    finds no response, it returns; in the three cases the files, the live
    database and the preferences are as they were. *)
Theorem fetchRulesetDBFile_without_data P url hashfn hash shown w :
  ToString url = Ok shown ->
  xhr P shown = XhrOpenFails \/ xhr P shown = XhrNoLoad \/ xhr P shown = XhrLoad None ->
  (xhr P shown = XhrOpenFails <->
   exists e, fst (fetchRulesetDBFile P url hashfn hash w) = Throw e) /\
  (xhr P shown = XhrOpenFails <->
   XhrSend shown ∉ drop (List.length (trace w))
                    (trace (snd (fetchRulesetDBFile P url hashfn hash w)))) /\
  files (snd (fetchRulesetDBFile P url hashfn hash w)) = files w /\
  mainDB (snd (fetchRulesetDBFile P url hashfn hash w)) = mainDB w /\
  prefs (snd (fetchRulesetDBFile P url hashfn hash w)) = prefs w.
Proof.
  intros Hshown Hxhr.
  unfold fetchRulesetDBFile. rewrite run_lift, Hshown.
  unfold bind, https_everywhereLog, emit, onload; simpl.
  destruct Hxhr as [-> | [-> | ->]]; simpl;
    rewrite ?drop_app_length; (split; [| split; [| done]]).
  - split; [by eexists | done].
  - split; [intros _ Hin | done].
    apply list_elem_of_singleton in Hin. discriminate.
  - split; [discriminate | by intros [e [=]]].
  - split; [discriminate | intros Hnot; exfalso; apply Hnot].
    rewrite <- app_assoc, drop_app_length. set_solver.
  - split; [discriminate | by intros [e [=]]].
  - split; [discriminate | intros Hnot; exfalso; apply Hnot].
    rewrite <- !app_assoc, drop_app_length. set_solver.
Qed.

(** ** From the gates to the artifact stage *)

Lemma http_gate_event update gets :
  Forall (fun e => is_http e = true) gets ->
  Forall (fun e => gate_event update e = true) gets.
Proof. intros Hgets. eapply Forall_impl; [exact Hgets | by intros []]. Qed.

Lemma verification_gate_event update signature :
  gate_event update (SigVerify update signature RULESET_UPDATE_KEY) = true.
Proof. simpl. by rewrite !String.eqb_refl. Qed.

(** Closes a goal [stopped_early update w (_, logged w events)]. *)
Ltac stop_here :=
  left; eexists; split; [reflexivity |];
  repeat first
    [ apply Forall_nil_2
    | apply Forall_cons_2; [first [reflexivity | apply verification_gate_event] |]
    | apply Forall_app_2
    | assumption
    | apply http_gate_event; assumption ].

(** Every run of [conditionallyApplyUpdate] either stops before the
    artifact stage or is a run of [fetchRulesetDBFile] that the gates and
    the verification let through. *)
Lemma gates_then_fetch P update w :
  stopped_early update w (conditionallyApplyUpdate P update w) \/
  reached_fetch P update w (conditionallyApplyUpdate P update w).
Proof.
  replace (conditionallyApplyUpdate P update w)
    with (conditionallyApplyUpdate P update (logged w [])) by (by rewrite logged_nil).
  run_gates.
  destruct (JSON_parse P update) as [updateObj |] eqn:Hparse; run_gates; [| stop_here].
  destruct (prefs w !! VERSION_PREF) as [extVersion |] eqn:Hv; run_gates; [| stop_here].
  destruct (prefs w !! BRANCH_PREF) as [extBranch |] eqn:Hb; run_gates; [| stop_here].
  destruct (prefs w !! RULESET_VERSION_PREF) as [rulesetVersion |] eqn:Hr; run_gates;
    [| stop_here].
  destruct (get updateObj "version") as [version |] eqn:Hver; [| stop_here].
  run_gates.
  destruct (fst (checkVersionRequirements P extVersion rulesetVersion version w))
    as [[|] |] eqn:Hgate; run_gates; [| stop_here | stop_here].
  destruct (get updateObj "branch") as [branch |] eqn:Hbranch; [| stop_here].
  destruct (strict_eq_str branch extBranch) eqn:Heq; run_gates; [| stop_here].
  apply strict_eq_str_true in Heq as ->.
  destruct (prefs w !! RSUPDATE_SIG_URL_PREF) as [sigFileSrc |] eqn:Hsrc; [| stop_here].
  unfold try_request.
  match goal with
  | |- context [try_request_from P 0 ?d sigFileSrc ?cb ?w0] =>
      destruct (try_request_from_run P 0 d sigFileSrc cb w0) as (gets & Hgets & ->)
  end.
  rewrite logged_app.
  destruct (first_response P 0 MAX_RSUPDATE_FETCHES sigFileSrc) as [signature |] eqn:Hfirst;
    [| stop_here].
  run_gates. rewrite run_verifyUpdateSignature; cbv zeta.
  destruct (verifyData P update (trim signature) RULESET_UPDATE_KEY) as [[|] |] eqn:Hverify;
    [| run_gates; stop_here | stop_here].
  run_gates.
  destruct (get updateObj "source") as [source |] eqn:Hsource; run_gates; [| stop_here].
  destruct (get updateObj "hashfn") as [hashfn |] eqn:Hhashfn; run_gates; [| stop_here].
  destruct (get updateObj "hash") as [hash |] eqn:Hhash; run_gates; [| stop_here].
  right. exists updateObj, extVersion, extBranch, rulesetVersion, version, signature,
    source, hashfn, hash. eexists.
  repeat match goal with |- _ /\ _ => split end.
  14: reflexivity.
  all: try done.
  - intros w0. by rewrite (checkVersionRequirements_fst _ _ _ _ w0 w).
  - unfold fetched_signature. by rewrite Hsrc.
  - repeat first
      [ apply Forall_nil_2
      | apply Forall_cons_2; [first [reflexivity | apply verification_gate_event] |]
      | apply Forall_app_2
      | apply http_gate_event; assumption ].
Qed.

(** X9: no artifact is asked for without cause.  If a run of
    [conditionallyApplyUpdate] sends a request for [url], then the body
    parsed, the version gate accepted its [version], its [branch] is the
    configured one, the signature that was obtained verifies over the raw
    body against the embedded key, and [url] is the text of the
    manifest's [source]. *)
Theorem artifact_request_is_justified P update w url :
  XhrSend url ∈ trace (snd (conditionallyApplyUpdate P update w)) ->
  XhrSend url ∉ trace w ->
  exists updateObj extVersion extBranch rulesetVersion version signature source,
    JSON_parse P update = Some updateObj /\
    prefs w !! VERSION_PREF = Some extVersion /\
    prefs w !! BRANCH_PREF = Some extBranch /\
    prefs w !! RULESET_VERSION_PREF = Some rulesetVersion /\
    get updateObj "version" = Ok version /\
    accepts P extVersion rulesetVersion version /\
    get updateObj "branch" = Ok (Str extBranch) /\
    fetched_signature P w = Some signature /\
    verifyData P update (trim signature) RULESET_UPDATE_KEY = Some true /\
    get updateObj "source" = Ok source /\
    ToString source = Ok url.
Proof.
  intros Hin Hnot.
  destruct (gates_then_fetch P update w) as [(events & Hsnd & Hgate) | Hreached].
  - rewrite Hsnd in Hin; simpl in Hin.
    apply elem_of_app in Hin as [Hin | Hin]; [done |].
    by apply (proj1 (Forall_forall _ _) Hgate) in Hin.
  - destruct Hreached as (updateObj & extVersion & extBranch & rulesetVersion & version &
      signature & source & hashfn & hash & events & Hparse & Hv & Hb & Hr & Hver & Hacc &
      Hbranch & Hsig & Hverify & Hsource & _ & _ & Hgate & Hrun).
    exists updateObj, extVersion, extBranch, rulesetVersion, version, signature, source.
    repeat match goal with |- _ /\ _ => split end; try done.
    rewrite Hrun in Hin.
    destruct (fetchRulesetDBFile_events P source hashfn hash (logged w events))
      as (sent & Htrace & Hsent).
    rewrite Htrace in Hin; simpl in Hin.
    apply elem_of_app in Hin as [Hin | Hin].
    + apply elem_of_app in Hin as [Hin | Hin]; [done |].
      by apply (proj1 (Forall_forall _ _) Hgate) in Hin.
    + destruct (ToString source) as [shown |]; [| subst sent; by apply elem_of_nil in Hin].
      apply (proj1 (Forall_forall _ _) Hsent) in Hin. simpl in Hin.
      apply String.eqb_eq in Hin. by subst.
Qed.

(** X10: the verifier is only ever given the raw body and the embedded
    key.  Every verification that a run of [conditionallyApplyUpdate]
    adds to the trace is of the text [update] it was called with, not of
    a parsed or rebuilt form, against [RULESET_UPDATE_KEY]. *)
Theorem verification_is_of_the_raw_body P update w data signature key :
  SigVerify data signature key ∈ trace (snd (conditionallyApplyUpdate P update w)) ->
  SigVerify data signature key ∉ trace w ->
  data = update /\ key = RULESET_UPDATE_KEY.
Proof.
  intros Hin Hnot.
  assert (forall events,
            Forall (fun e => gate_event update e = true) events ->
            SigVerify data signature key ∈ events ->
            data = update /\ key = RULESET_UPDATE_KEY) as Hshape.
  { intros events Hgate Hev.
    apply (proj1 (Forall_forall _ _) Hgate) in Hev. simpl in Hev.
    apply andb_prop in Hev as [Hd Hk].
    by apply String.eqb_eq in Hd, Hk. }
  destruct (gates_then_fetch P update w) as [(events & Hsnd & Hgate) | Hreached].
  - rewrite Hsnd in Hin; simpl in Hin.
    apply elem_of_app in Hin as [Hin | Hin]; [done | by apply (Hshape events)].
  - destruct Hreached as (updateObj & extVersion & extBranch & rulesetVersion & version &
      fetched & source & hashfn & hash & events & _ & _ & _ & _ & _ & _ & _ & _ & _ & _ &
      _ & _ & Hgate & Hrun).
    rewrite Hrun in Hin.
    destruct (fetchRulesetDBFile_events P source hashfn hash (logged w events))
      as (sent & Htrace & Hsent).
    rewrite Htrace in Hin; simpl in Hin.
    apply elem_of_app in Hin as [Hin | Hin].
    + apply elem_of_app in Hin as [Hin | Hin]; [done | by apply (Hshape events)].
    + destruct (ToString source) as [shown |]; [| subst sent; by apply elem_of_nil in Hin].
      by apply (proj1 (Forall_forall _ _) Hsent) in Hin.
Qed.

(** A manifest that passes the gates and the verification is handed to
    [fetchRulesetDBFile]. *)
Lemma verified_run P update w updateObj extVersion extBranch rulesetVersion version
    signature source :
  JSON_parse P update = Some updateObj ->
  prefs w !! VERSION_PREF = Some extVersion ->
  prefs w !! BRANCH_PREF = Some extBranch ->
  prefs w !! RULESET_VERSION_PREF = Some rulesetVersion ->
  get updateObj "version" = Ok version ->
  accepts P extVersion rulesetVersion version ->
  get updateObj "branch" = Ok (Str extBranch) ->
  fetched_signature P w = Some signature ->
  verifyData P update (trim signature) RULESET_UPDATE_KEY = Some true ->
  get updateObj "source" = Ok source ->
  exists hashfn hash events,
    conditionallyApplyUpdate P update w =
    fetchRulesetDBFile P source hashfn hash (logged w events).
Proof.
  intros Hparse Hv Hb Hr Hver Hacc Hbranch Hsig Hverify Hsource.
  unfold fetched_signature in Hsig.
  destruct (prefs w !! RSUPDATE_SIG_URL_PREF) as [sigFileSrc |] eqn:Hsrc; [| discriminate].
  assert (exists hashfn hash events,
            conditionallyApplyUpdate P update (logged w []) =
            fetchRulesetDBFile P source hashfn hash (logged w events))
    as (hashfn & hash & events & Hrun).
  { run_gates. rewrite Hparse. run_gates. rewrite Hv. run_gates. rewrite Hb.
    run_gates. rewrite Hr. run_gates. rewrite Hver. run_gates.
    rewrite Hacc. run_gates. rewrite Hbranch.
    replace (strict_eq_str (Str extBranch) extBranch) with true
      by (symmetry; by apply strict_eq_str_true).
    run_gates. rewrite Hsrc.
    unfold try_request.
    match goal with
    | |- context [try_request_from P 0 ?d sigFileSrc ?cb ?w0] =>
        destruct (try_request_from_run P 0 d sigFileSrc cb w0) as (gets & Hgets & ->)
    end.
    rewrite logged_app, Hsig. run_gates.
    rewrite run_verifyUpdateSignature, Hverify; cbv zeta. run_gates.
    rewrite Hsource. run_gates.
    destruct updateObj; try discriminate; simpl; run_gates; by do 3 eexists. }
  rewrite logged_nil in Hrun. by exists hashfn, hash, events.
Qed.

(** X11: a manifest that passes both gates and whose signature verifies
    has its artifact asked for at the text of its [source], unless the
    request cannot be opened, and the data that arrives is staged;
    [hashfn] and [hash] play no part in it. *)
Theorem verified_manifest_is_fetched P update w updateObj extVersion extBranch
    rulesetVersion version signature source shown :
  JSON_parse P update = Some updateObj ->
  prefs w !! VERSION_PREF = Some extVersion ->
  prefs w !! BRANCH_PREF = Some extBranch ->
  prefs w !! RULESET_VERSION_PREF = Some rulesetVersion ->
  get updateObj "version" = Ok version ->
  accepts P extVersion rulesetVersion version ->
  get updateObj "branch" = Ok (Str extBranch) ->
  fetched_signature P w = Some signature ->
  verifyData P update (trim signature) RULESET_UPDATE_KEY = Some true ->
  get updateObj "source" = Ok source ->
  ToString source = Ok shown ->
  (xhr P shown <> XhrOpenFails ->
   XhrSend shown ∈ trace (snd (conditionallyApplyUpdate P update w))) /\
  (forall byteArray,
     xhr P shown = XhrLoad (Some byteArray) ->
     files (snd (conditionallyApplyUpdate P update w)) =
       <[TMP_RULESET_DBFILE_PATH P := byteArray]> (files w)).
Proof.
  intros Hparse Hv Hb Hr Hver Hacc Hbranch Hsig Hverify Hsource Hshown.
  destruct (verified_run P update w updateObj extVersion extBranch rulesetVersion version
              signature source Hparse Hv Hb Hr Hver Hacc Hbranch Hsig Hverify Hsource)
    as (hashfn & hash & events & ->).
  unfold fetchRulesetDBFile. rewrite run_lift, Hshown, run_log.
  split.
  - intros Hopen. destruct (xhr P shown) as [| | response]; [done | |].
    + unfold emit; simpl. set_solver.
    + rewrite run_emit.
      match goal with
      | |- context [onload P response hashfn hash ?w1] =>
          destruct (onload_events P response hashfn hash w1) as (more & -> & _)
      end.
      simpl. set_solver.
  - intros byteArray ->. rewrite run_emit.
    match goal with
    | |- context [onload P (Some byteArray) hashfn hash ?w1] =>
        destruct (onload_files P byteArray hashfn hash w1) as [-> _]
    end.
    done.
Qed.

(** X12: a preference that has no value stops the run with the
    exception of [getCharPref], before any request.  So it is for the
    three preferences [conditionallyApplyUpdate] reads once the body has
    parsed, and for the manifest URL that [fetchUpdate] reads first. *)
Theorem missing_preference_raises P update w :
  (is_Some (JSON_parse P update) ->
   prefs w !! VERSION_PREF = None \/ prefs w !! BRANCH_PREF = None \/
   prefs w !! RULESET_VERSION_PREF = None ->
   exists events,
     conditionallyApplyUpdate P update w =
       (Throw (NS_ERROR "NS_ERROR_UNEXPECTED"), logged w events) /\
     Forall (fun e => is_log e = true) events) /\
  (prefs w !! RSUPDATE_URL_PREF = None ->
   fetchUpdate P w =
     (Throw (NS_ERROR "NS_ERROR_UNEXPECTED"), logged w [Log INFO "Calling fetchUpdate"])).
Proof.
  split.
  - intros [updateObj Hparse] Hmissing.
    replace (conditionallyApplyUpdate P update w)
      with (conditionallyApplyUpdate P update (logged w [])) by (by rewrite logged_nil).
    run_gates. rewrite Hparse. run_gates.
    destruct (prefs w !! VERSION_PREF); run_gates; [| logs_only].
    destruct (prefs w !! BRANCH_PREF); run_gates; [| logs_only].
    destruct (prefs w !! RULESET_VERSION_PREF); run_gates; [| logs_only].
    by destruct Hmissing as [? | [? | ?]].
  - intros Hmissing.
    replace (fetchUpdate P w) with (fetchUpdate P (logged w []))
      by (by rewrite logged_nil).
    unfold fetchUpdate. run_steps. by rewrite Hmissing.
Qed.

(** ** The rendering of a digest *)

Lemma toHexStr_value (b : byte) :
  hex_pair_value (toHexStr (Byte.to_N b)) = Some (Byte.to_N b).
Proof. destruct b; reflexivity. Qed.

Lemma toHexStr_two (b : byte) :
  exists h l, toHexStr (Byte.to_N b) = String h (String l EmptyString).
Proof. destruct b; by do 2 eexists. Qed.

Lemma join_hex_cons (b : byte) (hash : list byte) :
  String.concat EmptyString (map (fun b => toHexStr (Byte.to_N b)) (b :: hash)) =
  toHexStr (Byte.to_N b) +:+
  String.concat EmptyString (map (fun b => toHexStr (Byte.to_N b)) hash).
Proof.
  destruct hash as [| b' hash]; [| done].
  destruct (toHexStr_two b) as (h & l & Heq). simpl. by rewrite Heq.
Qed.

Lemma join_hex_inj (hash1 hash2 : list byte) :
  String.concat EmptyString (map (fun b => toHexStr (Byte.to_N b)) hash1) =
  String.concat EmptyString (map (fun b => toHexStr (Byte.to_N b)) hash2) ->
  hash1 = hash2.
Proof.
  revert hash2. induction hash1 as [| b1 hash1 IH]; intros [| b2 hash2] Heq; [done | | |].
  - rewrite join_hex_cons in Heq.
    destruct (toHexStr_two b2) as (h & l & Hb2). rewrite Hb2 in Heq. discriminate.
  - rewrite join_hex_cons in Heq.
    destruct (toHexStr_two b1) as (h & l & Hb1). rewrite Hb1 in Heq. discriminate.
  - rewrite !join_hex_cons in Heq.
    destruct (toHexStr_two b1) as (h1 & l1 & Hb1).
    destruct (toHexStr_two b2) as (h2 & l2 & Hb2).
    pose proof (toHexStr_value b1) as Hv1. pose proof (toHexStr_value b2) as Hv2.
    rewrite Hb1, Hb2 in Heq. simpl in Heq. injection Heq as -> -> Hrest.
    rewrite Hb1 in Hv1. rewrite Hb2, Hv1 in Hv2. injection Hv2 as Hn.
    assert (b1 = b2) as ->.
    { pose proof (Byte.of_to_N b1) as H1. rewrite Hn, Byte.of_to_N in H1. congruence. }
    f_equal. by apply IH.
Qed.

(** X13: the string that [hashBinaryFile] returns determines the digest.
    Each byte is written by the two digits of its value, so that two
    runs that return the same string have hashed to the same digest. *)
Theorem equal_hex_equal_digest P path len hashfn alg w1 w2 content1 content2 data1 data2 :
  hashing_init hashfn = Some alg ->
  files w1 !! path = Some content1 -> updateFromStream content1 len = Some data1 ->
  files w2 !! path = Some content2 -> updateFromStream content2 len = Some data2 ->
  fst (hashBinaryFile P path len hashfn w1) = fst (hashBinaryFile P path len hashfn w2) ->
  cryptoHash P alg data1 = cryptoHash P alg data2 /\
  (forall b : byte, hex_pair_value (toHexStr (Byte.to_N b)) = Some (Byte.to_N b)).
Proof.
  intros Halg Hfile1 Hdata1 Hfile2 Hdata2.
  unfold hashBinaryFile, bind, get_files; simpl.
  rewrite Halg, Hfile1, Hdata1, Hfile2, Hdata2; simpl.
  intros [= Heq]. split; [by apply join_hex_inj | apply toHexStr_value].
Qed.

(** ** A candidate version without a dot *)

Lemma slice_drop_last p c : slice (p +:+ String c EmptyString) 0 (-1) = p.
Proof.
  unfold slice, relative, length. rewrite length_append; simpl String.length.
  rewrite (proj2 (Z.ltb_ge 0 0)) by lia. rewrite (proj2 (Z.ltb_lt (-1) 0)) by lia.
  match goal with
  | |- String.substring ?from ?count _ = _ =>
      replace from with 0%nat by lia;
      replace count with (String.length p) by lia
  end.
  apply substring_prefix.
Qed.

Lemma accepts_str P extVersion rsVersion newVersion :
  accepts P extVersion rsVersion (Str newVersion) <->
  versionCompare P extVersion (slice newVersion 0 (lastIndexOf newVersion ".")) = 0 /\
  versionCompare P newVersion rsVersion > 0.
Proof.
  unfold accepts. split.
  - intros H. specialize (H Demo.world). rewrite checkVersionRequirements_str in H.
    injection H as H. apply andb_prop in H as [H1 H2]. split; lia.
  - intros [H1 H2] w. rewrite checkVersionRequirements_str. f_equal.
    apply andb_true_intro. split; lia.
Qed.

(** X14: a candidate version without a dot is not refused for its
    shape.  [lastIndexOf] answers [-1] and [slice(0, -1)] drops the last
    character, so that the candidate is accepted exactly when it, less
    its last character, compares equal to the extension version and it
    compares greater than the installed database version. *)
Theorem candidate_without_dot P extVersion rsVersion init last :
  no_dot (init +:+ String last EmptyString) = true ->
  (accepts P extVersion rsVersion (Str (init +:+ String last EmptyString)) <->
   versionCompare P extVersion init = 0 /\
   versionCompare P (init +:+ String last EmptyString) rsVersion > 0).
Proof.
  intros Hdot. rewrite accepts_str.
  unfold lastIndexOf. rewrite lastIndexOf_from_absent by exact Hdot.
  by rewrite slice_drop_last.
Qed.

(** ** The live database after the drops *)

(** X3: once the staged file has been opened, an installed database with
    both tables loses both.  When the live database holds [rulesets] and
    [targets], and the staged file is absent (it is then created empty)
    or is a database, whatever its tables, [applyNewRuleset] ends with the
    storage failure of a statement that cannot be prepared and leaves the
    live database with neither table. *)
Theorem applyNewRuleset_drops_both_tables P w :
  is_Some (mainDB w !! "rulesets") -> is_Some (mainDB w !! "targets") ->
  (files w !! TMP_RULESET_DBFILE_PATH P = None \/
   exists content, files w !! TMP_RULESET_DBFILE_PATH P = Some content /\
                   is_Some (sqlite_read P content)) ->
  fst (applyNewRuleset P w) = Throw (NS_ERROR "NS_ERROR_FAILURE") /\
  mainDB (snd (applyNewRuleset P w)) = delete "targets" (delete "rulesets" (mainDB w)) /\
  mainDB (snd (applyNewRuleset P w)) !! "rulesets" = None /\
  mainDB (snd (applyNewRuleset P w)) !! "targets" = None.
Proof.
  intros [rulesets Hr] [targets Ht] Hfile.
  assert (fst (applyNewRuleset P w) = Throw (NS_ERROR "NS_ERROR_FAILURE") /\
          mainDB (snd (applyNewRuleset P w)) =
            delete "targets" (delete "rulesets" (mainDB w))) as [Hraise Hdb].
  { unfold applyNewRuleset, openDatabase, drop_main, prepare_select, prepare_insert.
    unfold bind, https_everywhereLog, emit, get_files, get_mainDB, set_mainDB, set_files,
      ret, throw; simpl.
    destruct Hfile as [-> | (content & -> & [tempDB ->])]; simpl.
    - unfold Sql.drop_table, Sql.table; fold_names. rewrite Hr; simpl.
      rewrite lookup_delete_ne by done. rewrite Ht; simpl.
      unfold Sql.select, Sql.table; fold_names. rewrite lookup_empty; simpl. done.
    - unfold Sql.drop_table, Sql.table; fold_names. rewrite Hr; simpl.
      rewrite lookup_delete_ne by done. rewrite Ht; simpl.
      destruct (Sql.select _ _ tempDB); simpl; [| done].
      unfold Sql.can_insert, Sql.table; fold_names. by rewrite lookup_delete_eq. }
  split; [exact Hraise |]. split; [exact Hdb |].
  rewrite Hdb. split.
  - rewrite lookup_delete_ne by done. apply lookup_delete_eq.
  - apply lookup_delete_eq.
Qed.

(** ** The further theorems at concrete inputs *)

(** X1 on the example platform, the artifact being staged. *)
Lemma never_completes_witness :
  files Demo.staged !! TMP_RULESET_DBFILE_PATH (Demo.served Demo.update_ok) =
    Some Demo.artifact /\
  files (snd (applyNewRuleset (Demo.served Demo.update_ok) Demo.staged)) =
    files Demo.staged.
Proof.
  split; [reflexivity |].
  destruct (applyNewRuleset_never_completes (Demo.served Demo.update_ok) Demo.staged)
    as (_ & _ & _ & Hfiles).
  apply (Hfiles Demo.artifact). reflexivity.
Defined.

(** X2 on the example platform.  Over the installed database with a
    third table, that table is read back as it was under the spelling
    [Settings], and the table [RULESETS] is gone; over a
    live database that has lost [rulesets], the table [targets] and its
    rows are kept. *)
Lemma never_inserts_witness :
  Sql.table "Settings"
    (mainDB (snd (applyNewRuleset (Demo.served Demo.update_ok)
                    (Demo.staged_over Demo.with_settings)))) = Some Demo.settings /\
  Sql.table "RULESETS"
    (mainDB (snd (applyNewRuleset (Demo.served Demo.update_ok)
                    (Demo.staged_over Demo.with_settings)))) = None /\
  mainDB (snd (applyNewRuleset (Demo.served Demo.update_ok)
                 (Demo.staged_over Demo.targets_only))) = Demo.targets_only /\
  is_Some (Sql.table "targets" Demo.targets_only).
Proof.
  destruct (applyNewRuleset_never_inserts (Demo.served Demo.update_ok)
              (Demo.staged_over Demo.with_settings)) as (Hgone & Hother & _).
  destruct (applyNewRuleset_never_inserts (Demo.served Demo.update_ok)
              (Demo.staged_over Demo.targets_only)) as (_ & _ & Hnone).
  split; [| split; [| split]].
  - rewrite (Hother "Settings"); [reflexivity | by vm_compute | by vm_compute].
  - destruct (Hgone "RULESETS") as [Hnow | Hkept]; [exact Hnow |].
    vm_compute in Hkept. discriminate Hkept.
  - apply (Hnone "Rulesets"); reflexivity.
  - by eexists.
Defined.

(** X3 on the example platform: both tables of the installed database
    are dropped. *)
Lemma drops_both_tables_witness :
  fst (applyNewRuleset (Demo.served Demo.update_ok) Demo.staged) =
    Throw (NS_ERROR "NS_ERROR_FAILURE") /\
  mainDB (snd (applyNewRuleset (Demo.served Demo.update_ok) Demo.staged)) !! "targets" =
    None.
Proof.
  destruct (applyNewRuleset_drops_both_tables (Demo.served Demo.update_ok) Demo.staged)
    as (Hraise & _ & _ & Htargets).
  - by eexists.
  - by eexists.
  - right. exists Demo.artifact. split; [reflexivity | by eexists].
  - split; [exact Hraise | exact Htargets].
Defined.

(** X4 on the example platform, over a stale staged file. *)
Lemma stages_the_response_witness :
  files (snd (onload (Demo.served Demo.update_ok) (Some [x53; x09]) (Str "sha256")
                (Str "00") Demo.staged)) !! "/tmp/new_rulesets.sqlite" = Some [x53; x09] /\
  files (snd (onload (Demo.served Demo.update_ok) (Some [x53; x09]) (Str "sha256")
                (Str "00") Demo.staged)) !! "/tmp/other" = files Demo.staged !! "/tmp/other".
Proof.
  destruct (onload_stages_the_response (Demo.served Demo.update_ok) [x53; x09]
              (Str "sha256") (Str "00") Demo.staged "/tmp/other") as (Hstaged & Hother & _).
  split; [exact Hstaged | apply Hother; discriminate].
Defined.

(** X5 on the example platform, the manifest announcing the hash [00]. *)
Lemma applies_whatever_the_hash_witness :
  hashing_init (Str "sha256") = Some SHA256 /\
  exists events,
    trace (snd (onload (Demo.served Demo.update_bad_hash) (Some Demo.artifact)
                  (Str "sha256") (Str "00") Demo.world)) =
      ([Log INFO "byteArray has length 3";
       Log INFO ("dbhash = " +:+ Demo.good_hash);
       Log INFO "Hash of database file downloaded matches the hash provided by update.json";
       Log INFO "In applyNewRuleset"] ++ events)%list.
Proof.
  split; [reflexivity |].
  destruct (onload_applies_whatever_the_hash (Demo.served Demo.update_bad_hash)
              Demo.artifact (Str "sha256") (Str "00") SHA256 Demo.world)
    as (events & Htrace & _); [reflexivity | discriminate |].
  exists events. exact Htrace.
Defined.

(** X6 on the example platform, for the digest name [sha3]. *)
Lemma applies_without_a_digest_witness :
  exists events,
    trace (snd (onload (Demo.served Demo.update_sha3) (Some Demo.artifact)
                  (Str "sha3") (Str Demo.good_hash) Demo.world)) =
      ([Log INFO "byteArray has length 3";
       Log INFO "dbhash = null";
       Log INFO "Hash of database file downloaded matches the hash provided by update.json";
       Log INFO "In applyNewRuleset"] ++ events)%list.
Proof.
  destruct (onload_applies_without_a_digest (Demo.served Demo.update_sha3)
              Demo.artifact (Str "sha3") (Str Demo.good_hash) Demo.world)
    as (events & Htrace & _); [reflexivity |].
  exists events. exact Htrace.
Defined.

(** X7 on the example platform, for the digest name [md5]. *)
Lemma empty_response_witness :
  fst (onload (Demo.served Demo.update_ok) (Some []) (Str "md5") (Str "00") Demo.world) =
    Throw (NS_ERROR "NS_ERROR_NOT_AVAILABLE") /\
  mainDB (snd (onload (Demo.served Demo.update_ok) (Some []) (Str "md5") (Str "00")
                 Demo.world)) = Demo.installed.
Proof.
  destruct (onload_empty_response (Demo.served Demo.update_ok) (Str "md5") (Str "00") MD5
              Demo.world) as (Hraise & Hdb & _); [reflexivity |].
  split; [exact Hraise | exact Hdb].
Defined.

(** X8 on a platform whose artifact server sends no data. *)
Lemma without_data_witness :
  xhr (Demo.platform Demo.update_ok "sig:0" None) Demo.https_source = XhrLoad None /\
  files (snd (fetchRulesetDBFile (Demo.platform Demo.update_ok "sig:0" None)
                (Str Demo.https_source) (Str "sha256") (Str "00") Demo.world)) = ∅ /\
  mainDB (snd (fetchRulesetDBFile (Demo.platform Demo.update_ok "sig:0" None)
                 (Str Demo.https_source) (Str "sha256") (Str "00") Demo.world)) =
    Demo.installed.
Proof.
  split; [reflexivity |].
  destruct (fetchRulesetDBFile_without_data (Demo.platform Demo.update_ok "sig:0" None)
              (Str Demo.https_source) (Str "sha256") (Str "00") Demo.https_source
              Demo.world) as (_ & _ & Hfiles & Hdb & _).
  - reflexivity.
  - right; right; reflexivity.
  - split; [exact Hfiles | exact Hdb].
Defined.

(** X9 on the example platform: the request that the run sends is for
    the [source] of the manifest. *)
Lemma request_is_justified_witness :
  XhrSend Demo.https_source ∈
    trace (snd (conditionallyApplyUpdate (Demo.served Demo.update_ok) Demo.update_ok
                  Demo.world)) /\
  exists updateObj signature source,
    JSON_parse (Demo.served Demo.update_ok) Demo.update_ok = Some updateObj /\
    fetched_signature (Demo.served Demo.update_ok) Demo.world = Some signature /\
    verifyData (Demo.served Demo.update_ok) Demo.update_ok (trim signature)
      RULESET_UPDATE_KEY = Some true /\
    get updateObj "source" = Ok source /\
    ToString source = Ok Demo.https_source.
Proof.
  assert (XhrSend Demo.https_source ∈
            trace (snd (conditionallyApplyUpdate (Demo.served Demo.update_ok)
                          Demo.update_ok Demo.world))) as Hin by in_trace.
  split; [exact Hin |].
  destruct (artifact_request_is_justified (Demo.served Demo.update_ok) Demo.update_ok
              Demo.world Demo.https_source Hin)
    as (updateObj & _ & _ & _ & _ & signature & source & Hparse & _ & _ & _ & _ & _ & _ &
        Hsig & Hverify & Hsource & Hshown).
  - intros Hold. by apply elem_of_nil in Hold.
  - by exists updateObj, signature, source.
Defined.

(** X10 on the example platform. *)
Lemma verification_witness :
  SigVerify Demo.update_ok (Demo.sign Demo.update_ok) RULESET_UPDATE_KEY ∈
    trace (snd (conditionallyApplyUpdate (Demo.served Demo.update_ok) Demo.update_ok
                  Demo.world)) /\
  Demo.update_ok = Demo.update_ok /\ RULESET_UPDATE_KEY = RULESET_UPDATE_KEY.
Proof.
  assert (SigVerify Demo.update_ok (Demo.sign Demo.update_ok) RULESET_UPDATE_KEY ∈
            trace (snd (conditionallyApplyUpdate (Demo.served Demo.update_ok)
                          Demo.update_ok Demo.world))) as Hin by in_trace.
  split; [exact Hin |].
  apply (verification_is_of_the_raw_body (Demo.served Demo.update_ok) Demo.update_ok
           Demo.world Demo.update_ok (Demo.sign Demo.update_ok) RULESET_UPDATE_KEY Hin).
  intros Hold. by apply elem_of_nil in Hold.
Defined.

(** X11 on the example platform. *)
Lemma is_fetched_witness :
  XhrSend Demo.https_source ∈
    trace (snd (conditionallyApplyUpdate (Demo.served Demo.update_ok) Demo.update_ok
                  Demo.world)) /\
  files (snd (conditionallyApplyUpdate (Demo.served Demo.update_ok) Demo.update_ok
                Demo.world)) =
    <["/tmp/new_rulesets.sqlite" := Demo.artifact]> (files Demo.world).
Proof.
  destruct (verified_manifest_is_fetched (Demo.served Demo.update_ok) Demo.update_ok
              Demo.world (Demo.parsed Demo.update_ok) "3.4.5" "stable" "3.4.5.1"
              (Str "3.4.5.2")
              (Demo.sign Demo.update_ok +:+ String (ascii_of_N 10) EmptyString)
              (Str Demo.https_source) Demo.https_source) as [Hsent Hstaged].
  - vm_compute; reflexivity.
  - vm_compute; reflexivity.
  - vm_compute; reflexivity.
  - vm_compute; reflexivity.
  - vm_compute; reflexivity.
  - intros w; rewrite checkVersionRequirements_str; vm_compute; reflexivity.
  - vm_compute; reflexivity.
  - vm_compute; reflexivity.
  - vm_compute; reflexivity.
  - vm_compute; reflexivity.
  - reflexivity.
  - split; [apply Hsent; discriminate | apply (Hstaged Demo.artifact); reflexivity].
Defined.

(** X12 on a profile without any of the preferences. *)
Lemma missing_preference_witness :
  fst (conditionallyApplyUpdate (Demo.served Demo.update_ok) Demo.update_ok
         {| prefs := ∅; files := ∅; mainDB := Demo.installed; trace := [] |}) =
    Throw (NS_ERROR "NS_ERROR_UNEXPECTED") /\
  fst (fetchUpdate (Demo.served Demo.update_ok)
         {| prefs := ∅; files := ∅; mainDB := Demo.installed; trace := [] |}) =
    Throw (NS_ERROR "NS_ERROR_UNEXPECTED").
Proof.
  destruct (missing_preference_raises (Demo.served Demo.update_ok) Demo.update_ok
              {| prefs := ∅; files := ∅; mainDB := Demo.installed; trace := [] |})
    as [Hgates Hfetch].
  split.
  - destruct Hgates as (events & -> & _); [| by left | reflexivity].
    exists (Demo.parsed Demo.update_ok). vm_compute; reflexivity.
  - rewrite Hfetch; reflexivity.
Defined.

(** X13 on the example platform. *)
Lemma equal_hex_witness :
  cryptoHash (Demo.served Demo.update_ok) SHA256 Demo.artifact =
  cryptoHash (Demo.served Demo.update_ok) SHA256 Demo.artifact /\
  hex_pair_value (toHexStr 255) = Some 255%N.
Proof.
  destruct (equal_hex_equal_digest (Demo.served Demo.update_ok) "/tmp/new_rulesets.sqlite"
              3 (Str "sha256") SHA256 Demo.staged Demo.staged Demo.artifact Demo.artifact
              Demo.artifact Demo.artifact) as [Hdigest Hvalue]; try reflexivity.
  split; [exact Hdigest | exact (Hvalue xff)].
Defined.

(** X14 on the example platform: with extension version 1 and installed
    rulesets 14, the candidate 15 is accepted. *)
Lemma without_dot_witness :
  no_dot "15" = true /\
  accepts (Demo.served Demo.update_ok) "1" "14" (Str "15").
Proof.
  split; [reflexivity |].
  apply (candidate_without_dot (Demo.served Demo.update_ok) "1" "14" "1" "5");
    [reflexivity |].
  split; [reflexivity | vm_compute; reflexivity].
Defined.

(** ** One run after another *)

(** Where the request can be opened, [fetchRulesetDBFile] announces it
    and sends it before anything else. *)
Lemma fetchRulesetDBFile_sends P url hashfn hash shown w :
  ToString url = Ok shown -> xhr P shown <> XhrOpenFails ->
  exists events,
    trace (snd (fetchRulesetDBFile P url hashfn hash w)) =
      (trace w ++ Log INFO ("Making request to get database file at " +:+ shown)
               :: XhrSend shown :: events)%list.
Proof.
  intros Hshown Hopen. unfold fetchRulesetDBFile. rewrite run_lift, Hshown.
  unfold bind at 1. unfold https_everywhereLog at 1, emit at 1. cbv iota beta.
  destruct (xhr P shown) as [| | response]; [done | |].
  - exists []. simpl. by rewrite <- app_assoc.
  - unfold bind at 1, emit at 1. cbv iota beta.
    match goal with
    | |- context [onload P response hashfn hash ?w1] =>
        destruct (onload_events P response hashfn hash w1) as (events & Htrace & _)
    end.
    rewrite Htrace; simpl. rewrite <- !app_assoc. by exists events.
Qed.

(** Where it cannot, or the text of [url] cannot be made, nothing is sent. *)
Lemma fetchRulesetDBFile_sent P url hashfn hash sent w :
  XhrSend sent ∈ trace (snd (fetchRulesetDBFile P url hashfn hash w)) ->
  XhrSend sent ∉ trace w ->
  ToString url = Ok sent /\ xhr P sent <> XhrOpenFails.
Proof.
  intros Hin Hold. pose proof Hin as Hsent.
  destruct (fetchRulesetDBFile_events P url hashfn hash w) as (events & Htrace & Hev).
  rewrite Htrace in Hin. apply elem_of_app in Hin as [Hin | Hin]; [done |].
  destruct (ToString url) as [shown |] eqn:Hshown;
    [| subst events; by apply elem_of_nil in Hin].
  apply (proj1 (Forall_forall _ _) Hev) in Hin. simpl in Hin.
  apply String.eqb_eq in Hin as ->. split; [reflexivity |].
  intros Hfails. revert Hsent. unfold fetchRulesetDBFile.
  rewrite run_lift, Hshown. unfold bind at 1.
  unfold https_everywhereLog at 1, emit at 1. cbv iota beta. rewrite Hfails. simpl.
  intros Hsent. apply elem_of_app in Hsent as [Hsent | Hsent]; [done |].
  apply list_elem_of_singleton in Hsent. discriminate Hsent.
Qed.

(** X15: nothing a run does keeps the next run from repeating it.  If a
    run of [conditionallyApplyUpdate] has asked for the artifact at
    [url], then it has written no preference, and a run on the same
    manifest in the world it leaves passes the gates and the
    verification as the first did and asks for the artifact at [url]
    again, whatever the first run did to the files and the live
    database. *)
Theorem next_run_asks_again P update w url :
  XhrSend url ∈ trace (snd (conditionallyApplyUpdate P update w)) ->
  XhrSend url ∉ trace w ->
  prefs (snd (conditionallyApplyUpdate P update w)) = prefs w /\
  XhrSend url ∈
    drop (List.length (trace (snd (conditionallyApplyUpdate P update w))))
      (trace (snd (conditionallyApplyUpdate P update
                     (snd (conditionallyApplyUpdate P update w))))).
Proof.
  intros Hin Hold.
  pose proof (conditionallyApplyUpdate_same_prefs P update w) as Hprefs.
  unfold same_prefs in Hprefs. split; [exact Hprefs |].
  destruct (gates_then_fetch P update w) as [(events & Hsnd & Hgate) | Hreached].
  { rewrite Hsnd in Hin. simpl in Hin.
    apply elem_of_app in Hin as [Hin | Hin]; [done |].
    by apply (proj1 (Forall_forall _ _) Hgate) in Hin. }
  destruct Hreached as
    (updateObj & extVersion & extBranch & rulesetVersion & version & signature & source &
     hashfn & hash & events & Hparse & Hv & Hb & Hr & Hver & Hacc & Hbranch & Hsig &
     Hverify & Hsource & _ & _ & Hgate & Hrun).
  assert (ToString source = Ok url /\ xhr P url <> XhrOpenFails) as [Hshown Hopen].
  { rewrite Hrun in Hin.
    apply (fetchRulesetDBFile_sent P source hashfn hash url (logged w events) Hin).
    simpl. intros Hev. apply elem_of_app in Hev as [Hev | Hev]; [done |].
    by apply (proj1 (Forall_forall _ _) Hgate) in Hev. }
  set (w1 := snd (conditionallyApplyUpdate P update w)) in *.
  destruct (verified_run P update w1 updateObj extVersion extBranch rulesetVersion version
              signature source) as (hashfn' & hash' & events' & ->);
    try assumption; try (by rewrite Hprefs).
  { unfold fetched_signature in *. by rewrite Hprefs. }
  destruct (fetchRulesetDBFile_sends P source hashfn' hash' url (logged w1 events')
              Hshown Hopen) as (rest & ->).
  simpl. rewrite <- app_assoc, drop_app_length.
  apply elem_of_app. right. apply elem_of_cons. right. apply elem_of_cons. by left.
Qed.

(** X15 on the example platform: the run on the genuine manifest asks
    for the artifact, and so does the run that follows it. *)
Lemma next_run_witness :
  XhrSend Demo.https_source ∈
    trace (snd (conditionallyApplyUpdate (Demo.served Demo.update_ok) Demo.update_ok
                  Demo.world)) /\
  XhrSend Demo.https_source ∈
    drop (List.length
            (trace (snd (conditionallyApplyUpdate (Demo.served Demo.update_ok)
                           Demo.update_ok Demo.world))))
      (trace (snd (conditionallyApplyUpdate (Demo.served Demo.update_ok) Demo.update_ok
                     (snd (conditionallyApplyUpdate (Demo.served Demo.update_ok)
                             Demo.update_ok Demo.world))))).
Proof.
  assert (XhrSend Demo.https_source ∈
            trace (snd (conditionallyApplyUpdate (Demo.served Demo.update_ok)
                          Demo.update_ok Demo.world))) as Hin by in_trace.
  split; [exact Hin |].
  apply (next_run_asks_again (Demo.served Demo.update_ok) Demo.update_ok Demo.world
           Demo.https_source Hin).
  intros Hold. by apply elem_of_nil in Hold.
Defined.
